(** * Environment wrappers of [mvp/env_wrappers.py]

    A shallow embedding of the Gymnasium wrappers defined in
    [src/mvp/env_wrappers.py], followed by the properties of the
    wrappers that the specification states.

    Modelling conventions.
    - Finite floating-point values are exact rationals ([Q]); equality of
      computed numbers is [Qeq] ([==]).  Observations are NumPy arrays, so
      what is read from them and divided is a NumPy scalar: a division by
      zero does not raise, it gives [inf], [-inf] or [nan], the three
      further values of [npfloat].  Only rewards can carry them.
      Rounding is not modelled; bounds are stated so that a result
      rounded to the nearest double still meets them.
    - Python [int] counters are [Z].
    - An exception is the [Raise] branch of [result]; every method is a
      function from the receiver (and the global random state) to a
      [result] holding the updated receiver and the returned value.
    - The process-wide generators [np.random] and [random] are two streams
      of draws with a cursor each, carried in [World]; that the draws lie
      in [0, 1) is the assumption [unit_draws], made where it is used.
    - The wrapped environment is any type with an instance of [GymEnv]. *)

From Stdlib Require Import QArith Qabs Qminmax Lqa ZArith Lia.
From stdpp Require Import gmap strings list.

Local Open Scope Z_scope.
Local Open Scope Q_scope.

(** ** Exceptions and the state-and-error monad *)

Inductive PyExc : Type :=
| IndexError
| ValueError.

Inductive result (A : Type) : Type :=
| Ok (a : A)
| Raise (e : PyExc).
Arguments Ok {A} a.
Arguments Raise {A} e.

(** One generator: the draws it will produce, and how many were taken. *)
Record RandomState : Type := mkRandomState {
  draws : nat -> Q;
  cursor : nat
}.

Record World : Type := mkWorld {
  np_random : RandomState;   (* numpy's global generator *)
  py_random : RandomState    (* the generator of module random *)
}.

Definition M (A : Type) : Type := World -> result (A * World).

Definition ret {A} (a : A) : M A := fun w => Ok (a, w).

Definition bind {A B} (m : M A) (k : A -> M B) : M B :=
  fun w => match m w with
           | Ok (a, w') => k a w'
           | Raise e => Raise e
           end.

Definition raise {A} (e : PyExc) : M A := fun _ => Raise e.

Declare Scope py_scope.
Delimit Scope py_scope with py.
Notation "'do' x <- m ; k" := (bind m (fun x => k))
  (at level 10, x name, m at level 100, k at level 200) : py_scope.
Notation "'do' ' pat <- m ; k" :=
  (bind m (fun x => match x with pat => k end))
  (at level 10, pat pattern, m at level 100, k at level 200) : py_scope.
Local Open Scope py_scope.

(** ** Numbers *)

Definition Qltb (a b : Q) : bool := negb (Qle_bool b a).

(** [max(a, b)] of Python: the first argument unless the second is greater. *)
Definition py_max (a b : Q) : Q := if Qltb a b then b else a.

(** A NumPy [float64] scalar: finite, or one of [inf], [-inf], [nan]. *)
Inductive npfloat : Type :=
| Finite (q : Q)
| PosInf
| NegInf
| NaN.
Coercion Finite : Q >-> npfloat.

(** [a / b] for a NumPy scalar [a]: a zero divisor gives [inf], [-inf] or
    [nan] by the sign of [a] (and a warning), never an exception. *)
Definition np_truediv (a b : Q) : npfloat :=
  if Qeq_bool b 0 then
    (if Qltb 0 a then PosInf else if Qltb a 0 then NegInf else NaN)
  else Finite (a / b).

(** [a - x] for a finite [a]. *)
Definition np_rsub (a : Q) (x : npfloat) : npfloat :=
  match x with
  | Finite q => Finite (a - q)
  | PosInf => NegInf
  | NegInf => PosInf
  | NaN => NaN
  end.

(** [max(a, x)] of Python for a finite [a]: [a] unless [x > a], and
    [nan > a] is false. *)
Definition py_max_np (a : Q) (x : npfloat) : npfloat :=
  match x with
  | Finite q => Finite (py_max a q)
  | PosInf => PosInf
  | NegInf => Finite a
  | NaN => Finite a
  end.

(** [x * a] for a finite [a]. *)
Definition np_mul (x : npfloat) (a : Q) : npfloat :=
  match x with
  | Finite q => Finite (q * a)
  | PosInf => if Qltb 0 a then PosInf else if Qltb a 0 then NegInf else NaN
  | NegInf => if Qltb 0 a then NegInf else if Qltb a 0 then PosInf else NaN
  | NaN => NaN
  end.

(** [xs[i]] for a non-negative index. *)
Definition getitem (xs : list Q) (i : nat) : M Q :=
  match xs !! i with
  | Some x => ret x
  | None => raise IndexError
  end.

(** ** Random draws *)

Definition next_draw (r : RandomState) : Q * RandomState :=
  (draws r (cursor r), mkRandomState (draws r) (S (cursor r))).

(** [random.random()] *)
Definition random_random : M Q :=
  fun w => let '(u, r) := next_draw (py_random w) in
           Ok (u, mkWorld (np_random w) r).

(** [random.uniform(a, b)] is [a + (b - a) * random()]; computed in
    doubles the result can round to [b] itself. *)
Definition random_uniform (a b : Q) : M Q :=
  do u <- random_random ; ret (a + (b - a) * u).

Definition np_draw : M Q :=
  fun w => let '(u, r) := next_draw (np_random w) in
           Ok (u, mkWorld r (py_random w)).

(** [np.random.rand(n)]: [n] draws, in order. *)
Fixpoint np_random_rand (n : nat) : M (list Q) :=
  match n with
  | O => ret []
  | S n' => do u <- np_draw ; do us <- np_random_rand n' ; ret (u :: us)
  end.

(** [np.random.uniform(low, high, size=n)] *)
Definition np_random_uniform (low high : Q) (n : nat) : M (list Q) :=
  do us <- np_random_rand n ; ret (map (fun u => low + (high - low) * u) us).

(** ** Values carried by [info] *)

Inductive PyVal : Type :=
| PyNone
| PyBool (b : bool)
| PyInt (z : Z)
| PyFloat (q : Q)
| PyStr (s : string).

(** Truth value testing. *)
Definition truthy (v : PyVal) : bool :=
  match v with
  | PyNone => false
  | PyBool b => b
  | PyInt z => negb (Z.eqb z 0)
  | PyFloat q => negb (Qeq_bool q 0)
  | PyStr s => negb (String.eqb s "")
  end.

(** ** The step/reset contract *)

Abbreviation Obs := (list Q).
Abbreviation Action := (list Q).

Record Transition : Type := mkTransition {
  tr_observation : Obs;
  tr_reward : npfloat;
  tr_terminated : bool;
  tr_truncated : bool;
  tr_info : gmap string PyVal
}.

Class GymEnv (E : Type) : Type := {
  env_step : E -> Action -> M (E * Transition);
  env_reset : E -> M (E * (Obs * gmap string PyVal))
}.

(** ** [collections.deque] with [maxlen] *)

Module deque.
Record t : Type := mk {
  items : list npfloat;
  maxlen : Z
}.

(** [deque(maxlen=n)]; a negative [maxlen] is rejected. *)
Definition new (n : Z) : M t :=
  if (n <? 0)%Z then raise ValueError else ret (mk [] n).

Definition len (d : t) : Z := Z.of_nat (length (items d)).

(** [append]: a full deque drops its leftmost item first; a deque of
    capacity zero stays empty. *)
Definition append (d : t) (x : npfloat) : t :=
  if (maxlen d =? 0)%Z then d
  else if (len d =? maxlen d)%Z then mk (tail (items d) ++ [x]) (maxlen d)
  else mk (items d ++ [x]) (maxlen d).

(** [popleft] on an empty deque raises [IndexError]. *)
Definition popleft (d : t) : M (npfloat * t) :=
  match items d with
  | [] => raise IndexError
  | x :: rest => ret (x, mk rest (maxlen d))
  end.
End deque.

(** ** DelayedRewardWrapper (a [gym.RewardWrapper]) *)

Module DelayedRewardWrapper.
Section WithEnv.
Context {E : Type} `{GymEnv E}.

Record t : Type := mk {
  env : E;
  delay_steps : Z;
  reward_buffer : deque.t
}.

Definition __init__ (env : E) (delay_steps : Z) : M t :=
  do buf <- deque.new delay_steps ;
  ret (mk env delay_steps buf).

Definition reward (self : t) (r : npfloat) : M (t * npfloat) :=
  let buf := deque.append (reward_buffer self) r in
  if (deque.len buf <? delay_steps self)%Z then
    ret (mk (env self) (delay_steps self) buf, Finite 0)
  else
    do '(x, buf') <- deque.popleft buf ;
    ret (mk (env self) (delay_steps self) buf', x).

(** [RewardWrapper.step]: the inner step, then [reward] on its reward. *)
Definition step (self : t) (action : Action) : M (t * Transition) :=
  do '(env', tr) <- env_step (env self) action ;
  do '(self', r) <- reward (mk env' (delay_steps self) (reward_buffer self))
                           (tr_reward tr) ;
  ret (self', mkTransition (tr_observation tr) r (tr_terminated tr)
                           (tr_truncated tr) (tr_info tr)).

(** The class does not override [reset]: [Wrapper.reset] delegates. *)
Definition reset (self : t) : M (t * (Obs * gmap string PyVal)) :=
  do '(env', oi) <- env_reset (env self) ;
  ret (mk env' (delay_steps self) (reward_buffer self), oi).
End WithEnv.
Arguments t E : clear implicits.

#[global] Instance gym_env {E} `{GymEnv E} : GymEnv (t E) :=
  {| env_step := step; env_reset := reset |}.
End DelayedRewardWrapper.

(** ** TargetVelocityWrapper *)

Module TargetVelocityWrapper.
Section WithEnv.
Context {E : Type} `{GymEnv E}.

Record t : Type := mk {
  env : E;
  target_velocity : Q;
  tolerance : Q
}.

(** The constructor stores its arguments. *)
Definition __init__ (env : E) (target_velocity tolerance : Q) : M t :=
  ret (mk env target_velocity tolerance).

Definition step (self : t) (action : Action) : M (t * Transition) :=
  do '(env', tr) <- env_step (env self) action ;
  do velocity <- getitem (tr_observation tr) 8 ;
  let velocity_error := Qabs (target_velocity self - velocity) in
  let velocity_reward :=
    py_max_np 0 (np_rsub 1 (np_truediv velocity_error (tolerance self))) in
  ret (mk env' (target_velocity self) (tolerance self),
       mkTransition (tr_observation tr) velocity_reward (tr_terminated tr)
                    (tr_truncated tr) (tr_info tr)).

Definition reset (self : t) : M (t * (Obs * gmap string PyVal)) :=
  do '(env', oi) <- env_reset (env self) ;
  ret (mk env' (target_velocity self) (tolerance self), oi).
End WithEnv.
Arguments t E : clear implicits.

#[global] Instance gym_env {E} `{GymEnv E} : GymEnv (t E) :=
  {| env_step := step; env_reset := reset |}.
End TargetVelocityWrapper.

(** ** JumpRewardWrapper *)

Module JumpRewardWrapper.
Section WithEnv.
Context {E : Type} `{GymEnv E}.

Record t : Type := mk {
  env : E;
  jump_target_height : Q
}.

Definition __init__ (env : E) (jump_target_height : Q) : M t :=
  ret (mk env jump_target_height).

Definition step (self : t) (action : Action) : M (t * Transition) :=
  do '(env', tr) <- env_step (env self) action ;
  do torso_height <- getitem (tr_observation tr) 0 ;
  let height_reward := np_truediv torso_height (jump_target_height self) in
  ret (mk env' (jump_target_height self),
       mkTransition (tr_observation tr) height_reward (tr_terminated tr)
                    (tr_truncated tr) (tr_info tr)).

Definition reset (self : t) : M (t * (Obs * gmap string PyVal)) :=
  do '(env', oi) <- env_reset (env self) ;
  ret (mk env' (jump_target_height self), oi).
End WithEnv.
Arguments t E : clear implicits.

#[global] Instance gym_env {E} `{GymEnv E} : GymEnv (t E) :=
  {| env_step := step; env_reset := reset |}.
End JumpRewardWrapper.

(** ** MultiTimescaleWrapper *)

Module MultiTimescaleWrapper.
Section WithEnv.
Context {E : Type} `{GymEnv E}.

Record t : Type := mk {
  env : E;
  slow_factor : Q;
  fast_factor : Q;
  slow_scale : Q;
  fast_scale : Q;
  max_slow_factor : Q;
  episode_count : Z
}.

Definition __init__ (env : E) (slow_scale fast_scale max_slow_factor : Q)
  : M t :=
  ret (mk env 1 1 slow_scale fast_scale max_slow_factor 0%Z).

Definition step (self : t) (action : Action) : M (t * Transition) :=
  do fast_change <- np_random_uniform (- fast_scale self) (fast_scale self)
                                      (length action) ;
  let modified_action :=
    zip_with (fun a c => a * (1 + c)) action fast_change in
  do '(env', tr) <- env_step (env self) modified_action ;
  let reward := np_mul (tr_reward tr) (slow_factor self) in
  ret (mk env' (slow_factor self) (fast_factor self) (slow_scale self)
          (fast_scale self) (max_slow_factor self) (episode_count self),
       mkTransition (tr_observation tr) reward (tr_terminated tr)
                    (tr_truncated tr) (tr_info tr)).

Definition reset (self : t) : M (t * (Obs * gmap string PyVal)) :=
  let slow_factor' :=
    if Qltb (slow_factor self) (max_slow_factor self)
    then slow_factor self + slow_scale self
    else slow_factor self in
  let fast_factor' := 1 in
  let episode_count' := (episode_count self + 1)%Z in
  do '(env', oi) <- env_reset (env self) ;
  ret (mk env' slow_factor' fast_factor' (slow_scale self)
          (fast_scale self) (max_slow_factor self) episode_count', oi).

Definition get_factors (self : t) : Q * Q :=
  (slow_factor self, fast_factor self).
End WithEnv.
Arguments t E : clear implicits.

#[global] Instance gym_env {E} `{GymEnv E} : GymEnv (t E) :=
  {| env_step := step; env_reset := reset |}.
End MultiTimescaleWrapper.

(** ** MultiStepTaskWrapper *)

Module MultiStepTaskWrapper.
Section WithEnv.
Context {E : Type} `{GymEnv E}.

Record t : Type := mk {
  env : E;
  steps_to_goal : Z;
  current_steps : Z;
  penalize_non_goal : bool;
  goal_reached_condition : Obs -> gmap string PyVal -> PyVal
}.

(** [info.get("is_goal_reached", False)] *)
Definition _default_goal_reached_condition
    (obs : Obs) (info : gmap string PyVal) : PyVal :=
  match info !! "is_goal_reached"%string with
  | Some v => v
  | None => PyBool false
  end.

Definition __init__ (env : E) (reward_goal_steps : Z)
    (penalize_non_goal : bool)
    (goal_reached_condition : option (Obs -> gmap string PyVal -> PyVal))
  : M t :=
  ret (mk env reward_goal_steps 0%Z penalize_non_goal
          (match goal_reached_condition with
           | Some cond => cond
           | None => _default_goal_reached_condition
           end)).

Definition step (self : t) (action : Action) : M (t * Transition) :=
  do '(env', tr) <- env_step (env self) action ;
  let current_steps1 := (current_steps self + 1)%Z in
  let '(reward, current_steps2) :=
    if truthy (goal_reached_condition self (tr_observation tr) (tr_info tr))
    then (Finite 1, 0%Z)
    else if (steps_to_goal self <=? current_steps1)%Z
    then (if penalize_non_goal self then Finite (- (1 # 2)) else tr_reward tr,
          0%Z)
    else (Finite 0, current_steps1) in
  ret (mk env' (steps_to_goal self) current_steps2
          (penalize_non_goal self) (goal_reached_condition self),
       mkTransition (tr_observation tr) reward (tr_terminated tr)
                    (tr_truncated tr) (tr_info tr)).

Definition reset (self : t) : M (t * (Obs * gmap string PyVal)) :=
  do '(env', oi) <- env_reset (env self) ;
  ret (mk env' (steps_to_goal self) 0%Z (penalize_non_goal self)
          (goal_reached_condition self), oi).
End WithEnv.
Arguments t E : clear implicits.

#[global] Instance gym_env {E} `{GymEnv E} : GymEnv (t E) :=
  {| env_step := step; env_reset := reset |}.
End MultiStepTaskWrapper.

(** ** PartialObservabilityWrapper (a [gym.ObservationWrapper]) *)

Module PartialObservabilityWrapper.
Section WithEnv.
Context {E : Type} `{GymEnv E}.

Record t : Type := mk {
  env : E;
  observable_ratio : Q
}.

Definition __init__ (env : E) (observable_ratio : Q) : M t :=
  ret (mk env observable_ratio).

(** [np.where(mask, observation, 0)] *)
Definition np_where (mask : list bool) (xs : list Q) : list Q :=
  zip_with (fun (m : bool) x => if m then x else 0) mask xs.

Definition observation (self : t) (observation : Obs) : M Obs :=
  do us <- np_random_rand (length observation) ;
  let mask := map (fun u => Qltb u (observable_ratio self)) us in
  ret (np_where mask observation).

(** [ObservationWrapper.step] and [ObservationWrapper.reset] pass the
    inner observation through [observation]. *)
Definition step (self : t) (action : Action) : M (t * Transition) :=
  do '(env', tr) <- env_step (env self) action ;
  do obs <- observation self (tr_observation tr) ;
  ret (mk env' (observable_ratio self),
       mkTransition obs (tr_reward tr) (tr_terminated tr)
                    (tr_truncated tr) (tr_info tr)).

Definition reset (self : t) : M (t * (Obs * gmap string PyVal)) :=
  do '(env', oi) <- env_reset (env self) ;
  do obs <- observation self (fst oi) ;
  ret (mk env' (observable_ratio self), (obs, snd oi)).
End WithEnv.
Arguments t E : clear implicits.

#[global] Instance gym_env {E} `{GymEnv E} : GymEnv (t E) :=
  {| env_step := step; env_reset := reset |}.
End PartialObservabilityWrapper.

(** ** NonLinearDynamicsWrapper *)

Module NonLinearDynamicsWrapper.
Section WithEnv.
Context {E : Type} `{GymEnv E}.

Record t : Type := mk {
  env : E;
  dynamic_change_threshold : Z;
  step_count : Z
}.

Definition __init__ (env : E) (dynamic_change_threshold : Z) : M t :=
  ret (mk env dynamic_change_threshold 0%Z).

(** The factor lies between [1.2] and [2.0] for draws from [0, 1), never
    at zero, so the elementwise quotient is the rational one. *)
Definition step (self : t) (action : Action) : M (t * Transition) :=
  let step_count' := (step_count self + 1)%Z in
  do action' <-
    (if (dynamic_change_threshold self <? step_count')%Z then
       do coin <- random_random ;
       if Qltb (1 # 2) coin then
         do f <- random_uniform (12 # 10) 2 ;
         ret (map (fun a => a * f) action)
       else
         do f <- random_uniform (12 # 10) 2 ;
         ret (map (fun a => a / f) action)
     else ret action) ;
  do '(env', tr) <- env_step (env self) action' ;
  ret (mk env' (dynamic_change_threshold self) step_count', tr).

(** The class does not override [reset]: [Wrapper.reset] delegates. *)
Definition reset (self : t) : M (t * (Obs * gmap string PyVal)) :=
  do '(env', oi) <- env_reset (env self) ;
  ret (mk env' (dynamic_change_threshold self) (step_count self), oi).
End WithEnv.
Arguments t E : clear implicits.

#[global] Instance gym_env {E} `{GymEnv E} : GymEnv (t E) :=
  {| env_step := step; env_reset := reset |}.
End NonLinearDynamicsWrapper.

(** ** A scripted base environment and a driver *)

(** A base environment that replays a list of transitions and records the
    actions it is given; once the script is exhausted it keeps returning
    [idle]. *)
Module ScriptedEnv.
Record t : Type := mk {
  script : list Transition;
  idle : Transition;
  received : list Action
}.

Definition step (self : t) (action : Action) : M (t * Transition) :=
  match script self with
  | [] => ret (mk [] (idle self) (received self ++ [action]), idle self)
  | tr :: rest => ret (mk rest (idle self) (received self ++ [action]), tr)
  end.

Definition reset (self : t) : M (t * (Obs * gmap string PyVal)) :=
  ret (self, (tr_observation (idle self), tr_info (idle self))).

#[global] Instance gym_env : GymEnv t :=
  {| env_step := step; env_reset := reset |}.
End ScriptedEnv.

Inductive Call : Type :=
| CallStep (action : Action)
| CallReset.

(** Apply the calls in order; collect the reward of every [step]. *)
Fixpoint run {E : Type} `{GymEnv E} (e : E) (calls : list Call)
  : M (E * list npfloat) :=
  match calls with
  | [] => ret (e, [])
  | CallStep action :: calls' =>
      do '(e', tr) <- env_step e action ;
      do '(e'', rs) <- run e' calls' ;
      ret (e'', tr_reward tr :: rs)
  | CallReset :: calls' =>
      do '(e', _) <- env_reset e ;
      run e' calls'
  end.

(** The rewards emitted by successive calls of
    [DelayedRewardWrapper.reward]. *)
Fixpoint feed_rewards {E : Type} (self : DelayedRewardWrapper.t E)
    (rs : list npfloat) : M (DelayedRewardWrapper.t E * list npfloat) :=
  match rs with
  | [] => ret (self, [])
  | r :: rs' =>
      do '(self', x) <- DelayedRewardWrapper.reward self r ;
      do '(self'', xs) <- feed_rewards self' rs' ;
      ret (self'', x :: xs)
  end.

(** A delayed-reward wrapper with queue [buf], and a new one. *)
Abbreviation state e d buf := (DelayedRewardWrapper.mk e d (deque.mk buf d)).
Abbreviation fresh e d := (state e d []).

(** A script of transitions that differ only in their reward. *)
Definition reward_only (r : Q) : Transition :=
  mkTransition [] r false false ∅.

Definition rewards_script (rs : list Q) : ScriptedEnv.t :=
  ScriptedEnv.mk (map reward_only rs) (reward_only 0) [].

(** A generator that always draws one half. *)
Definition const_world : World :=
  mkWorld (mkRandomState (fun _ => 1 # 2) 0) (mkRandomState (fun _ => 1 # 2) 0).

(** A base environment that returns the action it is given as its
    observation. *)
Module EchoEnv.
Record t : Type := mk {
  last : Action
}.

Definition step (self : t) (action : Action) : M (t * Transition) :=
  ret (mk action, mkTransition action 0 false false ∅).

Definition reset (self : t) : M (t * (Obs * gmap string PyVal)) :=
  ret (self, (last self, ∅)).

#[global] Instance gym_env : GymEnv t :=
  {| env_step := step; env_reset := reset |}.
End EchoEnv.

(** The number of [step] calls in a list of calls. *)
Fixpoint count_steps (calls : list Call) : Z :=
  match calls with
  | [] => 0%Z
  | CallStep _ :: calls' => (1 + count_steps calls')%Z
  | CallReset :: calls' => count_steps calls'
  end.

(** [np.random.rand] draws from the half-open interval [0, 1). *)
Definition unit_draws (w : World) : Prop :=
  forall i : nat, 0 <= draws (np_random w) i /\ draws (np_random w) i < 1.

(** ** Wrappers outside the stated properties' code places *)

(** [np.random.normal(loc, scale, size=n)]: [loc + scale * z] for [n]
    standard normal variates [z], read in order from the generator's
    stream; a negative [scale] is rejected with [ValueError]. *)
Definition np_random_normal (loc scale : Q) (n : nat) : M (list Q) :=
  if Qltb scale 0 then raise ValueError
  else do zs <- np_random_rand n ;
       ret (map (fun z => loc + scale * z) zs).

Module NoisyObservationWrapper.
Section WithEnv.
Context {E : Type} `{GymEnv E}.

Record t : Type := mk {
  env : E;
  noise_scale : Q
}.

Definition __init__ (env : E) (noise_scale : Q) : M t :=
  ret (mk env noise_scale).

Definition observation (self : t) (observation : Obs) : M Obs :=
  do noise <- np_random_normal 0 (noise_scale self) (length observation) ;
  ret (zip_with Qplus observation noise).

(** [ObservationWrapper.step] and [ObservationWrapper.reset]. *)
Definition step (self : t) (action : Action) : M (t * Transition) :=
  do '(env', tr) <- env_step (env self) action ;
  do obs <- observation self (tr_observation tr) ;
  ret (mk env' (noise_scale self),
       mkTransition obs (tr_reward tr) (tr_terminated tr)
                    (tr_truncated tr) (tr_info tr)).

Definition reset (self : t) : M (t * (Obs * gmap string PyVal)) :=
  do '(env', oi) <- env_reset (env self) ;
  do obs <- observation self (fst oi) ;
  ret (mk env' (noise_scale self), (obs, snd oi)).
End WithEnv.
Arguments t E : clear implicits.

#[global] Instance gym_env {E} `{GymEnv E} : GymEnv (t E) :=
  {| env_step := step; env_reset := reset |}.
End NoisyObservationWrapper.

Module ActionMaskingWrapper.
Section WithEnv.
Context {E : Type} `{GymEnv E}.

Record t : Type := mk {
  env : E;
  mask_prob : Q
}.

Definition __init__ (env : E) (mask_prob : Q) : M t :=
  ret (mk env mask_prob).

(** [np.zeros_like(action)] is a zero vector of the action's length. *)
Definition step (self : t) (action : Action) : M (t * Transition) :=
  do u <- random_random ;
  let action' :=
    if Qltb u (mask_prob self) then replicate (length action) 0
    else action in
  do '(env', tr) <- env_step (env self) action' ;
  ret (mk env' (mask_prob self), tr).

(** The class does not override [reset]: [Wrapper.reset] delegates. *)
Definition reset (self : t) : M (t * (Obs * gmap string PyVal)) :=
  do '(env', oi) <- env_reset (env self) ;
  ret (mk env' (mask_prob self), oi).
End WithEnv.
Arguments t E : clear implicits.

#[global] Instance gym_env {E} `{GymEnv E} : GymEnv (t E) :=
  {| env_step := step; env_reset := reset |}.
End ActionMaskingWrapper.

(** [random.random()] draws from the half-open interval [0, 1). *)
Definition unit_py_draws (w : World) : Prop :=
  forall i : nat, 0 <= draws (py_random w) i /\ draws (py_random w) i < 1.

(** The number of [reset] calls in a list of calls. *)
Fixpoint count_resets (calls : list Call) : Z :=
  match calls with
  | [] => 0%Z
  | CallStep _ :: calls' => count_resets calls'
  | CallReset :: calls' => (1 + count_resets calls')%Z
  end.

(** The wrapped environment's view of a run of the wrapper: the result of
    [run] on the wrapped environment, with the final environment put back
    into a wrapper by [wrap]. *)
Definition lift_run {E W : Type} (wrap : E -> W)
    (r : result ((E * list npfloat) * World))
  : result ((W * list npfloat) * World) :=
  match r with
  | Ok ((e', rs), w') => Ok ((wrap e', rs), w')
  | Raise exc => Raise exc
  end.

(** * Properties *)

(** ** Comparison helpers *)

Lemma Qltb_true (a b : Q) : Qltb a b = true <-> a < b.
Proof.
  unfold Qltb. rewrite negb_true_iff.
  destruct (Qle_bool b a) eqn:Hle.
  - apply Qle_bool_iff in Hle. split; [discriminate | intros Hlt; lra].
  - split; [intros _ | reflexivity].
    destruct (Qlt_le_dec a b) as [Hlt | Hge]; [exact Hlt |].
    apply Qle_bool_iff in Hge. congruence.
Qed.

Lemma Qltb_false (a b : Q) : Qltb a b = false <-> b <= a.
Proof.
  unfold Qltb. rewrite negb_false_iff. apply Qle_bool_iff.
Qed.

Lemma py_max_spec (a b : Q) : py_max a b == Qmax a b.
Proof.
  unfold py_max. destruct (Qltb a b) eqn:Hlt.
  - apply Qltb_true in Hlt. symmetry. apply Q.max_r. lra.
  - apply Qltb_false in Hlt. symmetry. apply Q.max_l. exact Hlt.
Qed.

Lemma np_truediv_nonzero (a b : Q) :
  ~ b == 0 -> np_truediv a b = Finite (a / b).
Proof.
  intros Hb. unfold np_truediv.
  destruct (Qeq_bool b 0) eqn:Heq; [| reflexivity].
  apply Qeq_bool_iff in Heq. contradiction.
Qed.


(** ** DelayedRewardWrapper *)

Section DelayedReward.
Context {E : Type}.
Implicit Types (e : E) (buf rs : list npfloat).

(** While fewer than [delay_steps - 1] rewards are queued, [reward]
    queues its argument and returns zero. *)
Lemma reward_filling e (m : nat) buf (r : npfloat) (w : World) :
  (length buf < m)%nat ->
  DelayedRewardWrapper.reward (state e (Z.of_nat (S m)) buf) r w
  = Ok ((state e (Z.of_nat (S m)) (buf ++ [r]), Finite 0), w).
Proof.
  intros Hlen. unfold DelayedRewardWrapper.reward, deque.append, deque.len.
  cbn [DelayedRewardWrapper.reward_buffer DelayedRewardWrapper.delay_steps
       DelayedRewardWrapper.env deque.items deque.maxlen].
  destruct (Z.eqb_spec (Z.of_nat (S m)) 0) as [Hz | _]; [lia |].
  destruct (Z.eqb_spec (Z.of_nat (length buf)) (Z.of_nat (S m)))
    as [Hfull | _]; [lia |].
  cbn [deque.items]. rewrite length_app. cbn [length].
  destruct (Z.ltb_spec (Z.of_nat (length buf + 1)) (Z.of_nat (S m)))
    as [_ | Hge]; [reflexivity | lia].
Qed.

(** Once [delay_steps - 1] rewards are queued, [reward] queues its
    argument and returns the oldest queued reward. *)
Lemma reward_releasing e (m : nat) buf (r : npfloat) (w : World) :
  length buf = m ->
  DelayedRewardWrapper.reward (state e (Z.of_nat (S m)) buf) r w
  = Ok ((state e (Z.of_nat (S m)) (tail (buf ++ [r])),
         hd r (buf ++ [r])), w).
Proof.
  intros Hlen. unfold DelayedRewardWrapper.reward, deque.append, deque.len.
  cbn [DelayedRewardWrapper.reward_buffer DelayedRewardWrapper.delay_steps
       DelayedRewardWrapper.env deque.items deque.maxlen].
  destruct (Z.eqb_spec (Z.of_nat (S m)) 0) as [Hz | _]; [lia |].
  destruct (Z.eqb_spec (Z.of_nat (length buf)) (Z.of_nat (S m)))
    as [Hfull | _]; [lia |].
  cbn [deque.items]. rewrite length_app. cbn [length].
  destruct (Z.ltb_spec (Z.of_nat (length buf + 1)) (Z.of_nat (S m)))
    as [Hlt | _]; [lia |].
  unfold deque.popleft, bind, ret. cbn [deque.items deque.maxlen].
  destruct buf as [| x buf']; reflexivity.
Qed.

(** The rewards returned by successive calls of [reward], for any
    [delay_steps = m + 1 >= 1] and any queue of at most [m] rewards:
    zero until the queue holds [m] rewards, then the queued and fed
    rewards in order, each [m] calls late. *)
Lemma feed_rewards_from e (m : nat) rs : forall buf (w : World),
  (length buf <= m)%nat ->
  feed_rewards (state e (Z.of_nat (S m)) buf) rs w
  = Ok ((state e (Z.of_nat (S m))
               (drop (length rs - (m - length buf)) (buf ++ rs)),
         replicate (Nat.min (m - length buf) (length rs)) (Finite 0)
           ++ take (length rs - (m - length buf)) (buf ++ rs)), w).
Proof.
  induction rs as [| r rs IH]; intros buf w Hlen.
  - cbn [feed_rewards length]. rewrite Nat.min_0_r, app_nil_r.
    reflexivity.
  - cbn [feed_rewards]. unfold bind at 1.
    destruct (Nat.eq_dec (length buf) m) as [Heq | Hne].
    + rewrite (reward_releasing e m buf r w Heq).
      unfold bind at 1.
      assert (Hlen' : (length (tail (buf ++ [r])) <= m)%nat).
      { rewrite length_tl, length_app. cbn [length]. lia. }
      rewrite (IH _ w Hlen'). unfold ret.
      assert (Htl : length (tail (buf ++ [r])) = m).
      { rewrite length_tl, length_app. cbn [length]. lia. }
      rewrite Htl, Heq, !Nat.sub_diag, !Nat.sub_0_r.
      cbn [Nat.min replicate app length].
      assert (Hsplit : buf ++ r :: rs
                       = hd r (buf ++ [r]) :: tail (buf ++ [r]) ++ rs).
      { destruct buf as [| x buf']; [reflexivity |].
        cbn [app hd tail]. rewrite <- app_assoc. reflexivity. }
      rewrite Hsplit. reflexivity.
    + assert (Hlt : (length buf < m)%nat) by lia.
      rewrite (reward_filling e m buf r w Hlt).
      unfold bind at 1.
      assert (Hlen' : (length (buf ++ [r]) <= m)%nat).
      { rewrite length_app. cbn [length]. lia. }
      rewrite (IH _ w Hlen'). unfold ret.
      rewrite length_app. cbn [length].
      rewrite <- app_assoc. cbn [app].
      destruct (m - length buf)%nat as [| k] eqn:Hk; [lia |].
      replace (m - (length buf + 1))%nat with k by lia.
      replace (S (length rs) - S k)%nat with (length rs - k)%nat by lia.
      cbn [Nat.min replicate app]. reflexivity.
Qed.

(** From an empty queue: [delay_steps - 1] zeros, then the rewards fed. *)
Lemma feed_rewards_fresh e (m : nat) rs (w : World) :
  exists self',
    feed_rewards (fresh e (Z.of_nat (S m))) rs w
    = Ok ((self', replicate (Nat.min m (length rs)) (Finite 0)
                    ++ take (length rs - m) rs), w).
Proof.
  eexists. rewrite (feed_rewards_from e m rs [] w); [| cbn; lia].
  cbn [length app]. rewrite Nat.sub_0_r. reflexivity.
Qed.
End DelayedReward.

(** [Wrapper.reset] leaves the queue as it is. *)
Lemma delayed_reward_reset_keeps_queue {E : Type} `{GymEnv E}
    (self : DelayedRewardWrapper.t E) (w : World) :
  DelayedRewardWrapper.reset self w
  = match env_reset (DelayedRewardWrapper.env self) w with
    | Ok ((env', oi), w') =>
        Ok ((DelayedRewardWrapper.mk env'
               (DelayedRewardWrapper.delay_steps self)
               (DelayedRewardWrapper.reward_buffer self), oi), w')
    | Raise e => Raise e
    end.
Proof.
  unfold DelayedRewardWrapper.reset, bind, ret.
  destruct (env_reset _ w) as [[[env' oi] w'] | e]; reflexivity.
Qed.

Section DelayedRewardSteps.
Context {E : Type} {HE : GymEnv E}.
Implicit Types (e : E) (buf rs : list npfloat).

(** One call of [reward] from a queue of at most [m] rewards returns, and
    leaves a queue of at most [m] rewards; the result does not depend on
    the wrapped environment or on the random state. *)
Lemma reward_returns (m : nat) buf (r : npfloat) :
  (length buf <= m)%nat ->
  exists buf' (x : npfloat),
    (length buf' <= m)%nat
    /\ forall e (w : World),
         DelayedRewardWrapper.reward
           (state e (Z.of_nat (S m)) buf) r w
         = Ok ((state e (Z.of_nat (S m)) buf', x), w).
Proof.
  intros Hlen. destruct (Nat.eq_dec (length buf) m) as [Heq | Hne].
  - exists (tail (buf ++ [r])), (hd r (buf ++ [r])). split.
    + rewrite length_tl, length_app. cbn [length]. lia.
    + intros e w. apply reward_releasing. exact Heq.
  - exists (buf ++ [r]), (Finite 0). split.
    + rewrite length_app. cbn [length]. lia.
    + intros e w. apply reward_filling. lia.
Qed.

(** Steps of the wrapper emit what [reward] returns on the rewards of the
    same steps of the wrapped environment. *)
Lemma run_delayed_as_feed (m : nat) (actions : list Action) :
  forall e buf (w w' : World) e' rs,
    (length buf <= m)%nat ->
    run e (map CallStep actions) w = Ok ((e', rs), w') ->
    exists buf' (xs : list npfloat),
      run (state e (Z.of_nat (S m)) buf) (map CallStep actions) w
      = Ok ((state e' (Z.of_nat (S m)) buf', xs), w')
      /\ feed_rewards (state e' (Z.of_nat (S m)) buf) rs w'
         = Ok ((state e' (Z.of_nat (S m)) buf', xs), w').
Proof.
  induction actions as [| action actions IH]; intros e buf w w' e' rs Hlen Hrun.
  - cbn in Hrun. unfold ret in Hrun. injection Hrun as <- <- <-.
    exists buf, []. split; reflexivity.
  - cbn [map run] in Hrun. unfold bind at 1 in Hrun.
    destruct (env_step e action w) as [[[e1 tr] w1] | exc] eqn:Hinner;
      [| discriminate Hrun].
    unfold bind at 1 in Hrun.
    destruct (run e1 (map CallStep actions) w1) as [[[e2 rs1] w2] | exc]
      eqn:Hrest; [| discriminate Hrun].
    unfold ret in Hrun. injection Hrun as <- <- <-.
    destruct (reward_returns m buf (tr_reward tr) Hlen)
      as (buf1 & x & Hlen1 & Hreward).
    destruct (IH e1 buf1 w1 w2 e2 rs1 Hlen1 Hrest)
      as (buf' & xs & Hwrapped & Hfed).
    exists buf', (x :: xs). split.
    + cbn [map run]. unfold bind at 1.
      cbn [env_step DelayedRewardWrapper.gym_env].
      unfold DelayedRewardWrapper.step, bind at 1.
      cbn [DelayedRewardWrapper.env]. rewrite Hinner. cbv beta iota.
      unfold bind at 1.
      cbn [DelayedRewardWrapper.delay_steps
           DelayedRewardWrapper.reward_buffer].
      rewrite Hreward. unfold ret at 1. cbv beta iota.
      unfold bind at 1. rewrite Hwrapped. reflexivity.
    + cbn [feed_rewards]. unfold bind at 1. rewrite Hreward.
      unfold bind at 1. rewrite Hfed. reflexivity.
Qed.

(** C1 (as the code has it). For every [delay_steps = m + 1 >= 1], when
    the steps of the wrapped environment yield the rewards [rs], the same
    steps of a new wrapper emit zero on the first [m = delay_steps - 1]
    steps only, and then the rewards [rs] in order, each
    [delay_steps - 1] steps after the step that earned it; with
    [delay_steps = 3] and rewards [r0 .. r4] that is
    [0, 0, r0, r1, r2]. *)
Theorem delayed_reward_emits_after_delay_minus_one
    e (m : nat) (actions : list Action) (w w' : World) e' rs :
  run e (map CallStep actions) w = Ok ((e', rs), w') ->
  exists self',
    (do self <- DelayedRewardWrapper.__init__ e (Z.of_nat (S m)) ;
     run self (map CallStep actions)) w
    = Ok ((self', replicate (Nat.min m (length rs)) (Finite 0)
                    ++ take (length rs - m) rs), w').
Proof.
  intros Hrun.
  destruct (run_delayed_as_feed m actions e [] w w' e' rs
              ltac:(cbn; lia) Hrun) as (buf' & xs & Hwrapped & Hfed).
  rewrite (feed_rewards_from e' m rs [] w') in Hfed by (cbn; lia).
  cbn [length app] in Hfed. rewrite Nat.sub_0_r in Hfed.
  injection Hfed as _ <-.
  eexists. unfold DelayedRewardWrapper.__init__, deque.new, bind at 1.
  unfold bind at 1.
  destruct (Z.ltb_spec (Z.of_nat (S m)) 0) as [Hneg | _]; [lia |].
  unfold ret at 1. unfold ret at 1. exact Hwrapped.
Qed.
End DelayedRewardSteps.

Example delayed_reward_emits_after_delay_minus_one_at_three :
  exists self',
    (do self <- DelayedRewardWrapper.__init__
                  (rewards_script [1; 2; 3; 4; 5]) 3 ;
     run self (map CallStep [[]; []; []; []; []])) const_world
    = Ok ((self', map Finite [0; 0; 1; 2; 3]), const_world).
Proof.
  exact (delayed_reward_emits_after_delay_minus_one
           (HE := ScriptedEnv.gym_env)
           (rewards_script [1; 2; 3; 4; 5]) 2 [[]; []; []; []; []]
           const_world const_world
           (ScriptedEnv.mk [] (reward_only 0) [[]; []; []; []; []])
           (map Finite [1; 2; 3; 4; 5]) ltac:(reflexivity)).
Defined.

(** With [delay_steps = 3], symbolically: five steps of a new wrapper
    with inner rewards [r0 .. r4] emit [0, 0, r0, r1, r2], and [r3],
    [r4] stay queued. *)
Lemma delayed_reward_three_emits_from_third_step
    (r0 r1 r2 r3 r4 : Q) (a0 a1 a2 a3 a4 : Action) (w : World) :
  exists self',
    (do self <- DelayedRewardWrapper.__init__
                  (rewards_script [r0; r1; r2; r3; r4]) 3 ;
     run self (map CallStep [a0; a1; a2; a3; a4])) w
    = Ok ((self', map Finite [0; 0; r0; r1; r2]), w)
    /\ DelayedRewardWrapper.reward_buffer self'
       = deque.mk (map Finite [r3; r4]) 3.
Proof.
  eexists. split; reflexivity.
Qed.

(** The sequence [0, 0, 0, r0, r1] is not what five steps emit. *)
Lemma delayed_reward_three_not_three_zeros :
  ~ exists self' (w' : World),
      (do self <- DelayedRewardWrapper.__init__
                    (rewards_script [1; 2; 3; 4; 5]) 3 ;
       run self (map CallStep [[]; []; []; []; []])) const_world
      = Ok ((self', map Finite [0; 0; 0; 1; 2]), w').
Proof.
  intros (self' & w' & Heq). vm_compute in Heq. discriminate Heq.
Qed.

(** C2. [reset] does not clear the queue: with [delay_steps = 3], after an
    episode of three steps with inner rewards [r0, r1, r2], a [reset] and
    two more steps with inner rewards [r3, r4], the two steps of the new
    episode emit [r1] and [r2], the rewards left queued by the previous
    episode. *)
Theorem delayed_reward_queue_survives_reset
    (r0 r1 r2 r3 r4 : Q) (a0 a1 a2 a3 a4 : Action) (w : World) :
  exists self',
    (do self <- DelayedRewardWrapper.__init__
                  (rewards_script [r0; r1; r2; r3; r4]) 3 ;
     run self [CallStep a0; CallStep a1; CallStep a2; CallReset;
               CallStep a3; CallStep a4]) w
    = Ok ((self', map Finite [0; 0; r0; r1; r2]), w).
Proof.
  eexists. reflexivity.
Qed.

(** ** MultiStepTaskWrapper *)

Section MultiStepTask.
Context {E : Type} {HE : GymEnv E}.
Implicit Types (self : MultiStepTaskWrapper.t E) (tr : Transition).

(** The reward and the counter that [step] chooses, by branch. *)
Lemma multi_step_step_inner self (action : Action) (w w' : World) env' tr :
  env_step (MultiStepTaskWrapper.env self) action w = Ok ((env', tr), w') ->
  MultiStepTaskWrapper.step self action w
  = Ok (let '(reward, current_steps2) :=
          if truthy (MultiStepTaskWrapper.goal_reached_condition self
                       (tr_observation tr) (tr_info tr))
          then (Finite 1, 0%Z)
          else if (MultiStepTaskWrapper.steps_to_goal self
                   <=? MultiStepTaskWrapper.current_steps self + 1)%Z
          then (if MultiStepTaskWrapper.penalize_non_goal self
                then Finite (- (1 # 2)) else tr_reward tr, 0%Z)
          else (Finite 0, (MultiStepTaskWrapper.current_steps self + 1)%Z) in
        (MultiStepTaskWrapper.mk env'
           (MultiStepTaskWrapper.steps_to_goal self) current_steps2
           (MultiStepTaskWrapper.penalize_non_goal self)
           (MultiStepTaskWrapper.goal_reached_condition self),
         mkTransition (tr_observation tr) reward (tr_terminated tr)
                      (tr_truncated tr) (tr_info tr)), w').
Proof.
  intros Hinner. unfold MultiStepTaskWrapper.step, bind at 1.
  rewrite Hinner.
  destruct (truthy _); [reflexivity |].
  destruct (_ <=? _)%Z; reflexivity.
Qed.

(** At the step limit without the goal, the penalty replaces the reward
    only when [penalize_non_goal] is set; otherwise the inner reward is
    returned as it came. *)
Lemma multi_step_timeout self (action : Action) (w w' : World) env' tr :
  env_step (MultiStepTaskWrapper.env self) action w = Ok ((env', tr), w') ->
  truthy (MultiStepTaskWrapper.goal_reached_condition self
            (tr_observation tr) (tr_info tr)) = false ->
  (MultiStepTaskWrapper.steps_to_goal self
   <= MultiStepTaskWrapper.current_steps self + 1)%Z ->
  MultiStepTaskWrapper.step self action w
  = Ok ((MultiStepTaskWrapper.mk env'
           (MultiStepTaskWrapper.steps_to_goal self) 0%Z
           (MultiStepTaskWrapper.penalize_non_goal self)
           (MultiStepTaskWrapper.goal_reached_condition self),
         mkTransition (tr_observation tr)
           (if MultiStepTaskWrapper.penalize_non_goal self
            then Finite (- (1 # 2)) else tr_reward tr)
           (tr_terminated tr) (tr_truncated tr) (tr_info tr)), w').
Proof.
  intros Hinner Hgoal Hlimit.
  rewrite (multi_step_step_inner self action w w' env' tr Hinner), Hgoal.
  destruct (Z.leb_spec (MultiStepTaskWrapper.steps_to_goal self)
              (MultiStepTaskWrapper.current_steps self + 1)) as [_ | Hlt];
    [reflexivity | lia].
Qed.

(** C7. On a step where the goal predicate holds, whatever the counter,
    the reward is [1.0] and the counter is set to zero.  With the default
    predicate an [info] without the key ["is_goal_reached"] counts as goal
    not reached: the predicate returns [False] and the step returns through
    one of the two other branches. *)
Theorem multi_step_goal_reward_and_missing_key
    self (action : Action) (w w' : World) env' tr :
  env_step (MultiStepTaskWrapper.env self) action w = Ok ((env', tr), w') ->
  (truthy (MultiStepTaskWrapper.goal_reached_condition self
             (tr_observation tr) (tr_info tr)) = true ->
   MultiStepTaskWrapper.step self action w
   = Ok ((MultiStepTaskWrapper.mk env'
            (MultiStepTaskWrapper.steps_to_goal self) 0%Z
            (MultiStepTaskWrapper.penalize_non_goal self)
            (MultiStepTaskWrapper.goal_reached_condition self),
          mkTransition (tr_observation tr) 1 (tr_terminated tr)
                       (tr_truncated tr) (tr_info tr)), w'))
  /\ (MultiStepTaskWrapper.goal_reached_condition self
      = MultiStepTaskWrapper._default_goal_reached_condition ->
      tr_info tr !! "is_goal_reached"%string = None ->
      MultiStepTaskWrapper._default_goal_reached_condition
        (tr_observation tr) (tr_info tr) = PyBool false
      /\ exists (r : npfloat) (c : Z),
           MultiStepTaskWrapper.step self action w
           = Ok ((MultiStepTaskWrapper.mk env'
                    (MultiStepTaskWrapper.steps_to_goal self) c
                    (MultiStepTaskWrapper.penalize_non_goal self)
                    (MultiStepTaskWrapper.goal_reached_condition self),
                  mkTransition (tr_observation tr) r (tr_terminated tr)
                               (tr_truncated tr) (tr_info tr)), w')
           /\ (r, c)
              = if (MultiStepTaskWrapper.steps_to_goal self
                    <=? MultiStepTaskWrapper.current_steps self + 1)%Z
                then (if MultiStepTaskWrapper.penalize_non_goal self
                      then Finite (- (1 # 2)) else tr_reward tr, 0%Z)
                else (Finite 0,
                      (MultiStepTaskWrapper.current_steps self + 1)%Z)).
Proof.
  intros Hinner.
  pose proof (multi_step_step_inner self action w w' env' tr Hinner) as Hstep.
  split.
  - intros Hgoal. rewrite Hstep, Hgoal. reflexivity.
  - intros Hdefault Hmissing.
    assert (Hfalse : MultiStepTaskWrapper._default_goal_reached_condition
                       (tr_observation tr) (tr_info tr) = PyBool false).
    { unfold MultiStepTaskWrapper._default_goal_reached_condition.
      rewrite Hmissing. reflexivity. }
    split; [exact Hfalse |].
    rewrite Hstep, Hdefault, Hfalse. cbn [truthy].
    destruct (_ <=? _)%Z; do 2 eexists; split; reflexivity.
Qed.
End MultiStepTask.

(** The constructor installs the default predicate when none is given. *)
Lemma multi_step_init_default {E : Type} (e : E) (reward_goal_steps : Z)
    (penalize_non_goal : bool) (w : World) :
  MultiStepTaskWrapper.__init__ e reward_goal_steps penalize_non_goal None w
  = Ok (MultiStepTaskWrapper.mk e reward_goal_steps 0%Z penalize_non_goal
          MultiStepTaskWrapper._default_goal_reached_condition, w).
Proof. reflexivity. Qed.

Lemma multi_step_goal_reward_and_missing_key_witness :
  MultiStepTaskWrapper.step
    (MultiStepTaskWrapper.mk
       (ScriptedEnv.mk
          [mkTransition [] 3 false false
             {[ "is_goal_reached"%string := PyBool true ]}]
          (reward_only 0) [])
       10%Z 4%Z true MultiStepTaskWrapper._default_goal_reached_condition)
    [] const_world
  = Ok ((MultiStepTaskWrapper.mk (ScriptedEnv.mk [] (reward_only 0) [[]])
           10%Z 0%Z true
           MultiStepTaskWrapper._default_goal_reached_condition,
         mkTransition [] 1 false false
           {[ "is_goal_reached"%string := PyBool true ]}), const_world)
  /\ MultiStepTaskWrapper._default_goal_reached_condition [] ∅
     = PyBool false.
Proof.
  split.
  - apply (proj1 (multi_step_goal_reward_and_missing_key
                    (HE := ScriptedEnv.gym_env)
                    (MultiStepTaskWrapper.mk
                       (ScriptedEnv.mk
                          [mkTransition [] 3 false false
                             {[ "is_goal_reached"%string := PyBool true ]}]
                          (reward_only 0) [])
                       10%Z 4%Z true
                       MultiStepTaskWrapper._default_goal_reached_condition)
                    [] const_world const_world
                    (ScriptedEnv.mk [] (reward_only 0) [[]])
                    (mkTransition [] 3 false false
                       {[ "is_goal_reached"%string := PyBool true ]})
                    ltac:(reflexivity))).
    reflexivity.
  - apply (proj2 (multi_step_goal_reward_and_missing_key
                    (HE := ScriptedEnv.gym_env)
                    (MultiStepTaskWrapper.mk
                       (rewards_script [3]) 10%Z 4%Z true
                       MultiStepTaskWrapper._default_goal_reached_condition)
                    [] const_world const_world
                    (ScriptedEnv.mk [] (reward_only 0) [[]])
                    (reward_only 3) ltac:(reflexivity)));
      reflexivity.
Defined.

(** C3. At the step limit without the goal and with
    [penalize_non_goal = False], the reward emitted is the inner reward [r],
    not [0.0]; with [penalize_non_goal = True] it is [-0.5]; the counter is
    set to zero in both cases. *)
Theorem multi_step_timeout_without_penalty_keeps_inner_reward
    (r : Q) (a : Action) (w : World) :
  (do self <- MultiStepTaskWrapper.__init__ (rewards_script [r]) 1 false None ;
   MultiStepTaskWrapper.step self a) w
  = Ok ((MultiStepTaskWrapper.mk (ScriptedEnv.mk [] (reward_only 0) [a])
           1%Z 0%Z false MultiStepTaskWrapper._default_goal_reached_condition,
         reward_only r), w)
  /\ (do self <- MultiStepTaskWrapper.__init__ (rewards_script [r]) 1 true None ;
      MultiStepTaskWrapper.step self a) w
     = Ok ((MultiStepTaskWrapper.mk (ScriptedEnv.mk [] (reward_only 0) [a])
              1%Z 0%Z true MultiStepTaskWrapper._default_goal_reached_condition,
            reward_only (- (1 # 2))), w).
Proof.
  split; reflexivity.
Qed.

(** ** MultiTimescaleWrapper *)

Section MultiTimescale.
Context {E : Type} {HE : GymEnv E}.
Implicit Types (self : MultiTimescaleWrapper.t E).

(** [reset] adds [slow_scale] to a [slow_factor] below [max_slow_factor]
    and leaves it alone otherwise; it never sets it back. *)
Lemma multi_timescale_reset_inner self (w : World) :
  MultiTimescaleWrapper.reset self w
  = match env_reset (MultiTimescaleWrapper.env self) w with
    | Ok ((env', oi), w') =>
        Ok ((MultiTimescaleWrapper.mk env'
               (if Qltb (MultiTimescaleWrapper.slow_factor self)
                        (MultiTimescaleWrapper.max_slow_factor self)
                then MultiTimescaleWrapper.slow_factor self
                     + MultiTimescaleWrapper.slow_scale self
                else MultiTimescaleWrapper.slow_factor self)
               1
               (MultiTimescaleWrapper.slow_scale self)
               (MultiTimescaleWrapper.fast_scale self)
               (MultiTimescaleWrapper.max_slow_factor self)
               (MultiTimescaleWrapper.episode_count self + 1)%Z, oi), w')
    | Raise e => Raise e
    end.
Proof.
  unfold MultiTimescaleWrapper.reset, bind, ret.
  destruct (env_reset _ w) as [[[env' oi] w'] | e]; reflexivity.
Qed.

(** [step] does not touch the factors. *)
Lemma multi_timescale_step_keeps_factors self (action : Action)
    (w w' : World) self' (tr : Transition) :
  MultiTimescaleWrapper.step self action w = Ok ((self', tr), w') ->
  MultiTimescaleWrapper.slow_factor self'
  = MultiTimescaleWrapper.slow_factor self
  /\ MultiTimescaleWrapper.slow_scale self'
     = MultiTimescaleWrapper.slow_scale self
  /\ MultiTimescaleWrapper.max_slow_factor self'
     = MultiTimescaleWrapper.max_slow_factor self.
Proof.
  unfold MultiTimescaleWrapper.step, bind, ret. intros Hstep.
  destruct (np_random_uniform _ _ _ w) as [[fast_change w1] | e];
    [| discriminate Hstep].
  destruct (env_step _ _ w1) as [[[env' tr1] w2] | e];
    [| discriminate Hstep].
  injection Hstep as <- _ _. cbn. auto.
Qed.

End MultiTimescale.

(** C5. With [slow_scale = 0.3] and [max_slow_factor = 2.0], four resets of
    a new wrapper leave [slow_factor] at [2.2]: above [max_slow_factor],
    and not [min (1.0 + 0.3 * 4) 2.0]. *)
Theorem slow_factor_overshoots_max_slow_factor
    (e : ScriptedEnv.t) (w : World) :
  exists self',
    (do self <- MultiTimescaleWrapper.__init__ e (3 # 10) (1 # 10) 2 ;
     run self [CallReset; CallReset; CallReset; CallReset]) w
    = Ok ((self', []), w)
    /\ MultiTimescaleWrapper.slow_factor self' == 22 # 10
    /\ MultiTimescaleWrapper.max_slow_factor self'
       < MultiTimescaleWrapper.slow_factor self'
    /\ ~ MultiTimescaleWrapper.slow_factor self'
         == Qmin (1 + (3 # 10) * 4) 2.
Proof.
  eexists. split; [reflexivity |].
  cbn [MultiTimescaleWrapper.slow_factor
       MultiTimescaleWrapper.max_slow_factor].
  repeat split; vm_compute; congruence.
Qed.

(** ** TargetVelocityWrapper and JumpRewardWrapper *)

(** Facts on the quotient [error / tolerance] for a positive tolerance. *)
Lemma error_ratio_nonneg (err tol : Q) :
  0 < tol -> 0 <= err -> 0 <= err / tol.
Proof.
  intros Htol Herr. apply Qle_shift_div_l; [exact Htol | lra].
Qed.

Lemma error_ratio_ge_one (err tol : Q) :
  0 < tol -> tol <= err -> 1 <= err / tol.
Proof.
  intros Htol Herr. apply Qle_shift_div_l; [exact Htol | lra].
Qed.

Lemma error_ratio_monotone (err1 err2 tol : Q) :
  0 < tol -> err1 <= err2 -> err1 / tol <= err2 / tol.
Proof.
  intros Htol Herr. unfold Qdiv.
  apply Qmult_le_compat_r; [exact Herr |].
  apply Qlt_le_weak, Qinv_lt_0_compat, Htol.
Qed.

Section RewardShaping.
Context {E : Type} {HE : GymEnv E}.

(** [step] of the target-velocity wrapper after a successful inner step
    whose observation has a component 8, for every tolerance: it
    returns. *)
Lemma target_velocity_step_returns (self : TargetVelocityWrapper.t E)
    (action : Action) (w w' : World) env' (tr : Transition) (v : Q) :
  env_step (TargetVelocityWrapper.env self) action w = Ok ((env', tr), w') ->
  tr_observation tr !! 8%nat = Some v ->
  TargetVelocityWrapper.step self action w
  = Ok ((TargetVelocityWrapper.mk env'
           (TargetVelocityWrapper.target_velocity self)
           (TargetVelocityWrapper.tolerance self),
         mkTransition (tr_observation tr)
           (py_max_np 0
              (np_rsub 1
                 (np_truediv
                    (Qabs (TargetVelocityWrapper.target_velocity self - v))
                    (TargetVelocityWrapper.tolerance self))))
           (tr_terminated tr) (tr_truncated tr) (tr_info tr)), w').
Proof.
  intros Hinner Hobs.
  unfold TargetVelocityWrapper.step, bind at 1. rewrite Hinner.
  cbv beta iota. unfold bind at 1, getitem. rewrite Hobs. reflexivity.
Qed.

(** [step] of the jump wrapper after a successful inner step whose
    observation is not empty, for every target height: it returns. *)
Lemma jump_step_returns (self : JumpRewardWrapper.t E)
    (action : Action) (w w' : World) env' (tr : Transition) (h : Q) :
  env_step (JumpRewardWrapper.env self) action w = Ok ((env', tr), w') ->
  tr_observation tr !! 0%nat = Some h ->
  JumpRewardWrapper.step self action w
  = Ok ((JumpRewardWrapper.mk env' (JumpRewardWrapper.jump_target_height self),
         mkTransition (tr_observation tr)
           (np_truediv h (JumpRewardWrapper.jump_target_height self))
           (tr_terminated tr) (tr_truncated tr) (tr_info tr)), w').
Proof.
  intros Hinner Hobs.
  unfold JumpRewardWrapper.step, bind at 1. rewrite Hinner.
  cbv beta iota. unfold bind at 1, getitem. rewrite Hobs. reflexivity.
Qed.

(** [step] of the target-velocity wrapper after a successful inner step
    whose observation has a component 8, for a non-zero tolerance. *)
Lemma target_velocity_step_inner (self : TargetVelocityWrapper.t E)
    (action : Action) (w w' : World) env' (tr : Transition) (v : Q) :
  env_step (TargetVelocityWrapper.env self) action w = Ok ((env', tr), w') ->
  tr_observation tr !! 8%nat = Some v ->
  ~ TargetVelocityWrapper.tolerance self == 0 ->
  TargetVelocityWrapper.step self action w
  = Ok ((TargetVelocityWrapper.mk env'
           (TargetVelocityWrapper.target_velocity self)
           (TargetVelocityWrapper.tolerance self),
         mkTransition (tr_observation tr)
           (py_max 0 (1 - Qabs (TargetVelocityWrapper.target_velocity self - v)
                          / TargetVelocityWrapper.tolerance self))
           (tr_terminated tr) (tr_truncated tr) (tr_info tr)), w').
Proof.
  intros Hinner Hobs Htol.
  rewrite (target_velocity_step_returns self action w w' env' tr v
             Hinner Hobs).
  rewrite (np_truediv_nonzero _ _ Htol). reflexivity.
Qed.

(** [step] of the jump wrapper after a successful inner step whose
    observation is not empty, for a non-zero target height. *)
Lemma jump_step_inner (self : JumpRewardWrapper.t E)
    (action : Action) (w w' : World) env' (tr : Transition) (h : Q) :
  env_step (JumpRewardWrapper.env self) action w = Ok ((env', tr), w') ->
  tr_observation tr !! 0%nat = Some h ->
  ~ JumpRewardWrapper.jump_target_height self == 0 ->
  JumpRewardWrapper.step self action w
  = Ok ((JumpRewardWrapper.mk env' (JumpRewardWrapper.jump_target_height self),
         mkTransition (tr_observation tr)
           (h / JumpRewardWrapper.jump_target_height self)
           (tr_terminated tr) (tr_truncated tr) (tr_info tr)), w').
Proof.
  intros Hinner Hobs Htarget.
  rewrite (jump_step_returns self action w w' env' tr h Hinner Hobs).
  rewrite (np_truediv_nonzero _ _ Htarget). reflexivity.
Qed.

(** C6. For a positive tolerance, a step whose inner observation has
    velocity [v1] at index 8 returns the reward
    [max(0, 1 - |target_velocity - v1| / tolerance)]: it is [1] when [v1]
    is the target velocity, [0] when the error is at least the tolerance,
    always between [0] and [1], and not larger than the reward of a step
    whose error is smaller or equal. *)
Theorem target_velocity_reward (self : TargetVelocityWrapper.t E)
    (a1 a2 : Action) (w1 w1' w2 w2' : World) env1 env2
    (tr1 tr2 : Transition) (v1 v2 : Q) :
  0 < TargetVelocityWrapper.tolerance self ->
  env_step (TargetVelocityWrapper.env self) a1 w1 = Ok ((env1, tr1), w1') ->
  tr_observation tr1 !! 8%nat = Some v1 ->
  env_step (TargetVelocityWrapper.env self) a2 w2 = Ok ((env2, tr2), w2') ->
  tr_observation tr2 !! 8%nat = Some v2 ->
  exists r1 r2 : Q,
    TargetVelocityWrapper.step self a1 w1
    = Ok ((TargetVelocityWrapper.mk env1
             (TargetVelocityWrapper.target_velocity self)
             (TargetVelocityWrapper.tolerance self),
           mkTransition (tr_observation tr1) r1 (tr_terminated tr1)
                        (tr_truncated tr1) (tr_info tr1)), w1')
    /\ TargetVelocityWrapper.step self a2 w2
       = Ok ((TargetVelocityWrapper.mk env2
                (TargetVelocityWrapper.target_velocity self)
                (TargetVelocityWrapper.tolerance self),
              mkTransition (tr_observation tr2) r2 (tr_terminated tr2)
                           (tr_truncated tr2) (tr_info tr2)), w2')
    /\ r1 == Qmax 0 (1 - Qabs (TargetVelocityWrapper.target_velocity self - v1)
                         / TargetVelocityWrapper.tolerance self)
    /\ (v1 == TargetVelocityWrapper.target_velocity self -> r1 == 1)
    /\ (TargetVelocityWrapper.tolerance self
        <= Qabs (TargetVelocityWrapper.target_velocity self - v1) -> r1 == 0)
    /\ 0 <= r1 <= 1
    /\ (Qabs (TargetVelocityWrapper.target_velocity self - v1)
        <= Qabs (TargetVelocityWrapper.target_velocity self - v2) ->
        r2 <= r1).
Proof.
  intros Htol Hinner1 Hobs1 Hinner2 Hobs2.
  assert (Hnz : ~ TargetVelocityWrapper.tolerance self == 0) by lra.
  do 2 eexists.
  split; [exact (target_velocity_step_inner self a1 w1 w1' env1 tr1 v1
                   Hinner1 Hobs1 Hnz) |].
  split; [exact (target_velocity_step_inner self a2 w2 w2' env2 tr2 v2
                   Hinner2 Hobs2 Hnz) |].
  set (tv := TargetVelocityWrapper.target_velocity self).
  set (tol := TargetVelocityWrapper.tolerance self) in *.
  pose proof (Qabs_nonneg (tv - v1)) as Herr1.
  pose proof (Qabs_nonneg (tv - v2)) as Herr2.
  pose proof (error_ratio_nonneg _ _ Htol Herr1) as Hq1.
  pose proof (error_ratio_nonneg _ _ Htol Herr2) as Hq2.
  pose proof (py_max_spec 0 (1 - Qabs (tv - v1) / tol)) as Hmax1.
  pose proof (py_max_spec 0 (1 - Qabs (tv - v2) / tol)) as Hmax2.
  assert (Hr1 : forall q, py_max 0 (1 - q) == Qmax 0 (1 - q))
    by (intros q; apply py_max_spec).
  split; [exact Hmax1 |].
  split; [| split; [| split]].
  - intros Hv. rewrite Hmax1.
    assert (Hzero : Qabs (tv - v1) == 0).
    { assert (Hd : tv - v1 == 0) by lra. rewrite Hd. reflexivity. }
    rewrite Hzero. unfold Qdiv. rewrite Qmult_0_l.
    apply Q.max_r. lra.
  - intros Hfar. rewrite Hmax1.
    pose proof (error_ratio_ge_one _ _ Htol Hfar) as Hone.
    apply Q.max_l. lra.
  - rewrite Hmax1. split.
    + apply Q.le_max_l.
    + apply Q.max_lub; lra.
  - intros Hle. rewrite Hmax1, Hmax2.
    pose proof (error_ratio_monotone _ _ _ Htol Hle) as Hmono.
    apply Q.max_lub.
    + apply Q.le_max_l.
    + eapply Qle_trans; [| apply Q.le_max_r]. lra.
Qed.
End RewardShaping.

Lemma target_velocity_reward_witness :
  exists r1 r2 : Q,
    TargetVelocityWrapper.step
      (TargetVelocityWrapper.mk (EchoEnv.mk []) 2 (1 # 2))
      [0; 0; 0; 0; 0; 0; 0; 0; 2] const_world
    = Ok ((TargetVelocityWrapper.mk
             (EchoEnv.mk [0; 0; 0; 0; 0; 0; 0; 0; 2]) 2 (1 # 2),
           mkTransition [0; 0; 0; 0; 0; 0; 0; 0; 2] r1 false false ∅),
          const_world)
    /\ TargetVelocityWrapper.step
         (TargetVelocityWrapper.mk (EchoEnv.mk []) 2 (1 # 2))
         [0; 0; 0; 0; 0; 0; 0; 0; 9 # 4] const_world
       = Ok ((TargetVelocityWrapper.mk
                (EchoEnv.mk [0; 0; 0; 0; 0; 0; 0; 0; 9 # 4]) 2 (1 # 2),
              mkTransition [0; 0; 0; 0; 0; 0; 0; 0; 9 # 4] r2 false false ∅),
             const_world)
    /\ r1 == 1
    /\ r2 <= r1.
Proof.
  destruct (target_velocity_reward (HE := EchoEnv.gym_env)
              (TargetVelocityWrapper.mk (EchoEnv.mk []) 2 (1 # 2))
              [0; 0; 0; 0; 0; 0; 0; 0; 2] [0; 0; 0; 0; 0; 0; 0; 0; 9 # 4]
              const_world const_world const_world const_world
              (EchoEnv.mk [0; 0; 0; 0; 0; 0; 0; 0; 2])
              (EchoEnv.mk [0; 0; 0; 0; 0; 0; 0; 0; 9 # 4])
              (mkTransition [0; 0; 0; 0; 0; 0; 0; 0; 2] 0 false false ∅)
              (mkTransition [0; 0; 0; 0; 0; 0; 0; 0; 9 # 4] 0 false false ∅)
              2 (9 # 4)
              ltac:(reflexivity) ltac:(reflexivity) ltac:(reflexivity)
              ltac:(reflexivity) ltac:(reflexivity))
    as (r1 & r2 & Hstep1 & Hstep2 & _ & Hone & _ & _ & Hmono).
  exists r1, r2.
  split; [exact Hstep1 |]. split; [exact Hstep2 |].
  split; [apply Hone; reflexivity |].
  apply Hmono. vm_compute. discriminate.
Defined.

Section FrameOfRewardWrappers.
Context {E : Type} {HE : GymEnv E}.

(** C10. Whenever the inner step returns a transition, a step of the
    target-velocity wrapper (observation with a component 8) and a step of
    the jump wrapper (non-empty observation) return, for every tolerance
    and target height, zero included, the inner observation, terminated,
    truncated and info, with a reward of their own; and whatever
    transition either step returns has those four fields from the inner
    step. *)
Theorem reward_wrappers_replace_only_reward (e : E) (action : Action)
    (w w' : World) env' (tr : Transition) :
  env_step e action w = Ok ((env', tr), w') ->
  (forall (tv tol v : Q),
     tr_observation tr !! 8%nat = Some v ->
     exists r : npfloat,
       TargetVelocityWrapper.step (TargetVelocityWrapper.mk e tv tol) action w
       = Ok ((TargetVelocityWrapper.mk env' tv tol,
              mkTransition (tr_observation tr) r (tr_terminated tr)
                           (tr_truncated tr) (tr_info tr)), w'))
  /\ (forall (jt h : Q),
        tr_observation tr !! 0%nat = Some h ->
        exists r : npfloat,
          JumpRewardWrapper.step (JumpRewardWrapper.mk e jt) action w
          = Ok ((JumpRewardWrapper.mk env' jt,
                 mkTransition (tr_observation tr) r (tr_terminated tr)
                              (tr_truncated tr) (tr_info tr)), w'))
  /\ (forall (tv tol : Q) self' (tr' : Transition) (w'' : World),
        TargetVelocityWrapper.step (TargetVelocityWrapper.mk e tv tol) action w
        = Ok ((self', tr'), w'') ->
        tr_observation tr' = tr_observation tr
        /\ tr_terminated tr' = tr_terminated tr
        /\ tr_truncated tr' = tr_truncated tr
        /\ tr_info tr' = tr_info tr)
  /\ (forall (jt : Q) self' (tr' : Transition) (w'' : World),
        JumpRewardWrapper.step (JumpRewardWrapper.mk e jt) action w
        = Ok ((self', tr'), w'') ->
        tr_observation tr' = tr_observation tr
        /\ tr_terminated tr' = tr_terminated tr
        /\ tr_truncated tr' = tr_truncated tr
        /\ tr_info tr' = tr_info tr).
Proof.
  intros Hinner. split; [| split; [| split]].
  - intros tv tol v Hobs. eexists.
    exact (target_velocity_step_returns (TargetVelocityWrapper.mk e tv tol)
             action w w' env' tr v Hinner Hobs).
  - intros jt h Hobs. eexists.
    exact (jump_step_returns (JumpRewardWrapper.mk e jt)
             action w w' env' tr h Hinner Hobs).
  - intros tv tol self' tr' w'' Hstep.
    destruct (tr_observation tr !! 8%nat) as [v |] eqn:Hobs.
    + rewrite (target_velocity_step_returns
                 (TargetVelocityWrapper.mk e tv tol) action w w' env' tr v
                 Hinner Hobs) in Hstep.
      injection Hstep as _ <- _. cbn. auto.
    + unfold TargetVelocityWrapper.step, bind at 1 in Hstep.
      cbn [TargetVelocityWrapper.env] in Hstep. rewrite Hinner in Hstep.
      cbv beta iota in Hstep. unfold bind at 1, getitem in Hstep.
      rewrite Hobs in Hstep. discriminate Hstep.
  - intros jt self' tr' w'' Hstep.
    destruct (tr_observation tr !! 0%nat) as [h |] eqn:Hobs.
    + rewrite (jump_step_returns (JumpRewardWrapper.mk e jt) action w w'
                 env' tr h Hinner Hobs) in Hstep.
      injection Hstep as _ <- _. cbn. auto.
    + unfold JumpRewardWrapper.step, bind at 1 in Hstep.
      cbn [JumpRewardWrapper.env] in Hstep. rewrite Hinner in Hstep.
      cbv beta iota in Hstep. unfold bind at 1, getitem in Hstep.
      rewrite Hobs in Hstep. discriminate Hstep.
Qed.
End FrameOfRewardWrappers.

Lemma reward_wrappers_replace_only_reward_witness :
  (exists r : npfloat,
     TargetVelocityWrapper.step
       (TargetVelocityWrapper.mk (EchoEnv.mk []) 2 0)
       [1; 0; 0; 0; 0; 0; 0; 0; 2] const_world
     = Ok ((TargetVelocityWrapper.mk
              (EchoEnv.mk [1; 0; 0; 0; 0; 0; 0; 0; 2]) 2 0,
            mkTransition [1; 0; 0; 0; 0; 0; 0; 0; 2] r false false ∅),
           const_world))
  /\ (exists r : npfloat,
        JumpRewardWrapper.step
          (JumpRewardWrapper.mk (EchoEnv.mk []) 0)
          [1; 0; 0; 0; 0; 0; 0; 0; 2] const_world
        = Ok ((JumpRewardWrapper.mk
                 (EchoEnv.mk [1; 0; 0; 0; 0; 0; 0; 0; 2]) 0,
               mkTransition [1; 0; 0; 0; 0; 0; 0; 0; 2] r false false ∅),
              const_world)).
Proof.
  pose proof (reward_wrappers_replace_only_reward (HE := EchoEnv.gym_env)
                (EchoEnv.mk []) [1; 0; 0; 0; 0; 0; 0; 0; 2]
                const_world const_world
                (EchoEnv.mk [1; 0; 0; 0; 0; 0; 0; 0; 2])
                (mkTransition [1; 0; 0; 0; 0; 0; 0; 0; 2] 0 false false ∅)
                ltac:(reflexivity)) as (Htv & Hjump & _ & _).
  split.
  - apply (Htv 2 0 2). reflexivity.
  - apply (Hjump 0 1). reflexivity.
Defined.

(** ** PartialObservabilityWrapper *)

(** [np.random.rand(n)] returns [n] of the generator's draws and moves its
    cursor by [n]. *)
Lemma np_random_rand_draws (n : nat) : forall w : World,
  exists us : list Q,
    np_random_rand n w
    = Ok (us, mkWorld (mkRandomState (draws (np_random w))
                                     (cursor (np_random w) + n))
                      (py_random w))
    /\ length us = n
    /\ Forall (fun u => exists i : nat, u = draws (np_random w) i) us.
Proof.
  induction n as [| n IH]; intros w.
  - exists []. cbn [np_random_rand]. unfold ret.
    rewrite Nat.add_0_r. destruct w as [[d c] py]. cbn.
    repeat split. constructor.
  - cbn [np_random_rand]. unfold bind at 1, np_draw, next_draw.
    destruct (IH (mkWorld (mkRandomState (draws (np_random w))
                                         (S (cursor (np_random w))))
                          (py_random w))) as (us & Hus & Hlen & Hall).
    cbn [np_random py_random draws cursor] in Hus, Hall.
    exists (draws (np_random w) (cursor (np_random w)) :: us).
    unfold bind at 1. rewrite Hus. unfold ret.
    replace (cursor (np_random w) + S n)%nat
      with (S (cursor (np_random w)) + n)%nat by lia.
    repeat split.
    + cbn [length]. rewrite Hlen. reflexivity.
    + constructor; [eexists; reflexivity | exact Hall].
Qed.

(** A mask that is true everywhere selects the whole observation. *)
Lemma np_where_all_observed (ratio : Q) (us : list Q) : forall obs : list Q,
  length us = length obs ->
  Forall (fun u => u < ratio) us ->
  PartialObservabilityWrapper.np_where
    (map (fun u => Qltb u ratio) us) obs = obs.
Proof.
  unfold PartialObservabilityWrapper.np_where.
  induction us as [| u us IH]; intros [| x obs] Hlen Hall;
    try discriminate Hlen; [reflexivity |].
  inversion Hall as [| ? ? Hu Hrest]; subst.
  cbn [map zip_with]. apply Qltb_true in Hu. rewrite Hu.
  f_equal. apply IH; [| exact Hrest].
  cbn [length] in Hlen. lia.
Qed.

Section PartialObservability.
Context {E : Type} {HE : GymEnv E}.

(** C8. With [observable_ratio = 1.0] and draws from [0, 1), [observation]
    returns its argument, component for component, and a step returns the
    inner transition with its observation unchanged. *)
Theorem partial_observability_full_ratio_is_identity
    (self : PartialObservabilityWrapper.t E) :
  PartialObservabilityWrapper.observable_ratio self == 1 ->
  (forall (obs : Obs) (w : World),
     unit_draws w ->
     exists w' : World,
       PartialObservabilityWrapper.observation self obs w = Ok (obs, w'))
  /\ (forall (action : Action) (w w1 : World) env' (tr : Transition),
        env_step (PartialObservabilityWrapper.env self) action w
        = Ok ((env', tr), w1) ->
        unit_draws w1 ->
        exists w' : World,
          PartialObservabilityWrapper.step self action w
          = Ok ((PartialObservabilityWrapper.mk env'
                   (PartialObservabilityWrapper.observable_ratio self),
                 tr), w')).
Proof.
  intros Hratio.
  assert (Hobs : forall (obs : Obs) (w : World),
             unit_draws w ->
             exists w' : World,
               PartialObservabilityWrapper.observation self obs w
               = Ok (obs, w')).
  { intros obs w Hdraws.
    destruct (np_random_rand_draws (length obs) w) as (us & Hus & Hlen & Hall).
    eexists. unfold PartialObservabilityWrapper.observation, bind, ret.
    rewrite Hus. rewrite np_where_all_observed; [reflexivity | exact Hlen |].
    eapply Forall_impl; [exact Hall |].
    intros u [i ->]. cbn beta. rewrite Hratio. apply (Hdraws i). }
  split; [exact Hobs |].
  intros action w w1 env' tr Hinner Hdraws.
  destruct (Hobs (tr_observation tr) w1 Hdraws) as [w' Hw'].
  exists w'. unfold PartialObservabilityWrapper.step, bind at 1.
  rewrite Hinner. cbv beta iota. unfold bind at 1. rewrite Hw'.
  unfold ret. destruct tr; reflexivity.
Qed.
End PartialObservability.

Lemma partial_observability_full_ratio_is_identity_witness :
  exists w' : World,
    PartialObservabilityWrapper.observation
      (PartialObservabilityWrapper.mk (EchoEnv.mk []) 1)
      [3; - (1 # 2); 0] const_world
    = Ok ([3; - (1 # 2); 0], w').
Proof.
  apply (proj1 (partial_observability_full_ratio_is_identity
                  (HE := EchoEnv.gym_env)
                  (PartialObservabilityWrapper.mk (EchoEnv.mk []) 1)
                  ltac:(reflexivity))).
  intros i. split; vm_compute; congruence.
Defined.

(** ** NonLinearDynamicsWrapper *)

Section NonLinearDynamics.
Context {E : Type} {HE : GymEnv E}.
Implicit Types (self : NonLinearDynamicsWrapper.t E).

(** A step is the inner step on some action, with the counter one higher;
    while the new counter does not exceed the threshold that action is the
    one given and no draw is taken. *)
Lemma nonlinear_step_inner self (action : Action) (w : World) :
  exists (action' : Action) (w1 : World),
    NonLinearDynamicsWrapper.step self action w
    = match env_step (NonLinearDynamicsWrapper.env self) action' w1 with
      | Ok ((env', tr), w') =>
          Ok ((NonLinearDynamicsWrapper.mk env'
                 (NonLinearDynamicsWrapper.dynamic_change_threshold self)
                 (NonLinearDynamicsWrapper.step_count self + 1)%Z, tr), w')
      | Raise exc => Raise exc
      end
    /\ ((NonLinearDynamicsWrapper.step_count self + 1
         <= NonLinearDynamicsWrapper.dynamic_change_threshold self)%Z ->
        action' = action /\ w1 = w).
Proof.
  unfold NonLinearDynamicsWrapper.step.
  destruct (Z.ltb_spec
              (NonLinearDynamicsWrapper.dynamic_change_threshold self)
              (NonLinearDynamicsWrapper.step_count self + 1)) as [Hover | Hunder].
  - cbv [bind ret random_uniform random_random next_draw].
    destruct (Qltb (1 # 2) _);
      lazymatch goal with
      | |- context [env_step (NonLinearDynamicsWrapper.env self) ?a ?w0] =>
          exists a, w0
      end;
      (split; [| intros Hle; lia]);
      destruct (env_step _ _ _) as [[[env' tr] w'] | exc]; reflexivity.
  - exists action, w. split; [| auto].
    unfold bind at 1, ret at 1. unfold bind at 1.
    destruct (env_step _ _ _) as [[[env' tr] w'] | exc]; reflexivity.
Qed.

(** [reset] is the inner reset; the counter is left as it is. *)
Lemma nonlinear_reset_inner self (w : World) :
  NonLinearDynamicsWrapper.reset self w
  = match env_reset (NonLinearDynamicsWrapper.env self) w with
    | Ok ((env', oi), w') =>
        Ok ((NonLinearDynamicsWrapper.mk env'
               (NonLinearDynamicsWrapper.dynamic_change_threshold self)
               (NonLinearDynamicsWrapper.step_count self), oi), w')
    | Raise exc => Raise exc
    end.
Proof.
  unfold NonLinearDynamicsWrapper.reset, bind, ret.
  destruct (env_reset _ w) as [[[env' oi] w'] | exc]; reflexivity.
Qed.

(** Over any sequence of steps and resets the counter grows by the number
    of steps. *)
Lemma nonlinear_step_count_run (calls : list Call) :
  forall self (w w' : World) self' (rs : list npfloat),
    run self calls w = Ok ((self', rs), w') ->
    NonLinearDynamicsWrapper.step_count self'
    = (NonLinearDynamicsWrapper.step_count self + count_steps calls)%Z.
Proof.
  induction calls as [| [action |] calls IH]; intros self w w' self' rs Hrun.
  - cbn in Hrun. unfold ret in Hrun. injection Hrun as <- _ _. cbn. lia.
  - cbn [run] in Hrun. unfold bind at 1 in Hrun.
    cbn [env_step NonLinearDynamicsWrapper.gym_env] in Hrun.
    destruct (nonlinear_step_inner self action w)
      as (action' & w1 & Hstep & _).
    rewrite Hstep in Hrun.
    destruct (env_step _ action' w1) as [[[env' tr] w2] | exc];
      [| discriminate Hrun].
    cbv beta iota in Hrun. unfold bind at 1 in Hrun.
    destruct (run _ calls w2) as [[[self2 rs2] w3] | exc] eqn:Hrest;
      [| discriminate Hrun].
    unfold ret in Hrun. injection Hrun as <- _ _.
    rewrite (IH _ _ _ _ _ Hrest). cbn [NonLinearDynamicsWrapper.step_count
                                        count_steps]. lia.
  - cbn [run] in Hrun. unfold bind at 1 in Hrun.
    cbn [env_reset NonLinearDynamicsWrapper.gym_env] in Hrun.
    rewrite nonlinear_reset_inner in Hrun.
    destruct (env_reset _ w) as [[[env' oi] w1] | exc]; [| discriminate Hrun].
    rewrite (IH _ _ _ _ _ Hrun). reflexivity.
Qed.

(** C9. Every step is the inner step taken with the counter raised by
    exactly one, and with the action unchanged while the raised counter
    does not exceed [dynamic_change_threshold]; [reset] is the inner reset
    and leaves the counter alone; so after any sequence of steps and
    resets the counter is its initial value plus the number of steps. *)
Theorem nonlinear_dynamics_step_counter self (action : Action) (w : World) :
  (exists (action' : Action) (w1 : World),
     NonLinearDynamicsWrapper.step self action w
     = match env_step (NonLinearDynamicsWrapper.env self) action' w1 with
       | Ok ((env', tr), w') =>
           Ok ((NonLinearDynamicsWrapper.mk env'
                  (NonLinearDynamicsWrapper.dynamic_change_threshold self)
                  (NonLinearDynamicsWrapper.step_count self + 1)%Z, tr), w')
       | Raise exc => Raise exc
       end
     /\ ((NonLinearDynamicsWrapper.step_count self + 1
          <= NonLinearDynamicsWrapper.dynamic_change_threshold self)%Z ->
         action' = action /\ w1 = w))
  /\ NonLinearDynamicsWrapper.reset self w
     = match env_reset (NonLinearDynamicsWrapper.env self) w with
       | Ok ((env', oi), w') =>
           Ok ((NonLinearDynamicsWrapper.mk env'
                  (NonLinearDynamicsWrapper.dynamic_change_threshold self)
                  (NonLinearDynamicsWrapper.step_count self), oi), w')
       | Raise exc => Raise exc
       end
  /\ (forall (calls : list Call) (w' : World) self' (rs : list npfloat),
        run self calls w = Ok ((self', rs), w') ->
        NonLinearDynamicsWrapper.step_count self'
        = (NonLinearDynamicsWrapper.step_count self + count_steps calls)%Z).
Proof.
  split; [apply nonlinear_step_inner |].
  split; [apply nonlinear_reset_inner |].
  intros calls w' self' rs Hrun.
  exact (nonlinear_step_count_run calls self w w' self' rs Hrun).
Qed.
End NonLinearDynamics.

Lemma nonlinear_dynamics_step_counter_witness :
  NonLinearDynamicsWrapper.step
    (NonLinearDynamicsWrapper.mk (EchoEnv.mk []) 5 0) [1] const_world
  = Ok ((NonLinearDynamicsWrapper.mk (EchoEnv.mk [1]) 5 1,
         mkTransition [1] 0 false false ∅), const_world)
  /\ NonLinearDynamicsWrapper.step_count
       (NonLinearDynamicsWrapper.mk (EchoEnv.mk [1]) 5 2)
     = (NonLinearDynamicsWrapper.step_count
          (NonLinearDynamicsWrapper.mk (EchoEnv.mk []) 5 0)
        + count_steps [CallStep [1%Q]; CallReset; CallStep [1%Q]])%Z.
Proof.
  destruct (nonlinear_dynamics_step_counter
              (HE := EchoEnv.gym_env)
              (NonLinearDynamicsWrapper.mk (EchoEnv.mk []) 5 0)
              [1] const_world)
    as ((action' & w1 & Hstep & Hsame) & _ & Hcount).
  split.
  - destruct (Hsame ltac:(cbn; lia)) as [-> ->]. rewrite Hstep. reflexivity.
  - apply (Hcount [CallStep [1]; CallReset; CallStep [1]] const_world
             (NonLinearDynamicsWrapper.mk (EchoEnv.mk [1]) 5 2) (map Finite [0; 0])).
    reflexivity.
Defined.

(** ** Construction of the reward wrappers and zero divisors *)

Section ZeroDivisors.
Context {E : Type} {HE : GymEnv E}.


End ZeroDivisors.



(** * Further properties of the wrappers *)

(** ** DelayedRewardWrapper: the queue and degenerate delays *)

Section DelayedRewardQueue.
Context {E : Type} {HE : GymEnv E}.
Implicit Types (e : E) (buf rs : list npfloat).

(** A step of a wrapper with [delay_steps = m + 1] whose queue holds at
    most [m] rewards: the inner step, with the reward replaced by what
    [reward] returns; the queue again holds at most [m] rewards. *)
Lemma delayed_step_inner (m : nat) buf e (action : Action) (w : World) :
  (length buf <= m)%nat ->
  DelayedRewardWrapper.step (state e (Z.of_nat (S m)) buf) action w
  = match env_step e action w with
    | Ok ((e1, tr), w1) =>
        Ok ((state e1 (Z.of_nat (S m))
               (if Nat.eqb (length buf) m
                then tail (buf ++ [tr_reward tr])
                else buf ++ [tr_reward tr]),
             mkTransition (tr_observation tr)
               (if Nat.eqb (length buf) m
                then hd (tr_reward tr) (buf ++ [tr_reward tr])
                else 0)
               (tr_terminated tr) (tr_truncated tr) (tr_info tr)), w1)
    | Raise exc => Raise exc
    end.
Proof.
  intros Hlen. unfold DelayedRewardWrapper.step, bind at 1.
  cbn [DelayedRewardWrapper.env].
  destruct (env_step e action w) as [[[e1 tr] w1] | exc]; [| reflexivity].
  cbv beta iota. unfold bind at 1.
  cbn [DelayedRewardWrapper.delay_steps DelayedRewardWrapper.reward_buffer].
  destruct (Nat.eqb_spec (length buf) m) as [Heq | Hne].
  - rewrite (reward_releasing e1 m buf (tr_reward tr) w1 Heq). reflexivity.
  - rewrite (reward_filling e1 m buf (tr_reward tr) w1) by lia. reflexivity.
Qed.

Lemma delayed_queue_bound_run (m : nat) (calls : list Call) :
  forall e buf (w w' : World) self' rs,
    (length buf <= m)%nat ->
    run (state e (Z.of_nat (S m)) buf) calls w = Ok ((self', rs), w') ->
    DelayedRewardWrapper.delay_steps self' = Z.of_nat (S m)
    /\ deque.maxlen (DelayedRewardWrapper.reward_buffer self')
       = Z.of_nat (S m)
    /\ (length (deque.items (DelayedRewardWrapper.reward_buffer self'))
        <= m)%nat.
Proof.
  induction calls as [| [action |] calls IH];
    intros e buf w w' self' rs Hlen Hrun.
  - cbn in Hrun. unfold ret in Hrun. injection Hrun as <- _ _.
    cbn. auto.
  - cbn [run] in Hrun. unfold bind at 1 in Hrun.
    cbn [env_step DelayedRewardWrapper.gym_env] in Hrun.
    rewrite (delayed_step_inner m buf e action w Hlen) in Hrun.
    destruct (env_step e action w) as [[[e1 tr] w1] | exc];
      [| discriminate Hrun].
    cbv beta iota in Hrun. unfold bind at 1 in Hrun.
    destruct (run _ calls w1) as [[[self2 rs2] w2] | exc] eqn:Hrest;
      [| discriminate Hrun].
    unfold ret in Hrun. injection Hrun as <- _ _.
    apply (IH _ _ _ _ _ _) with (2 := Hrest).
    destruct (Nat.eqb_spec (length buf) m) as [Heq | Hne].
    + rewrite length_tl, length_app. cbn [length]. lia.
    + rewrite length_app. cbn [length]. lia.
  - cbn [run] in Hrun. unfold bind at 1 in Hrun.
    cbn [env_reset DelayedRewardWrapper.gym_env] in Hrun.
    rewrite delayed_reward_reset_keeps_queue in Hrun.
    cbn [DelayedRewardWrapper.env DelayedRewardWrapper.delay_steps
         DelayedRewardWrapper.reward_buffer] in Hrun.
    destruct (env_reset e w) as [[[e1 oi] w1] | exc]; [| discriminate Hrun].
    exact (IH _ _ _ _ _ _ Hlen Hrun).
Qed.

(** X1. For [delay_steps >= 1], whatever steps and resets a new wrapper
    goes through, its queue ends with at most [delay_steps - 1] rewards,
    below the capacity [maxlen = delay_steps] of the deque: [append] never
    evicts a queued reward. *)
Theorem delayed_reward_queue_stays_below_capacity
    e (m : nat) (calls : list Call) (w w' : World) self' rs :
  (do self <- DelayedRewardWrapper.__init__ e (Z.of_nat (S m)) ;
   run self calls) w = Ok ((self', rs), w') ->
  deque.maxlen (DelayedRewardWrapper.reward_buffer self')
  = DelayedRewardWrapper.delay_steps self'
  /\ (deque.len (DelayedRewardWrapper.reward_buffer self')
      < deque.maxlen (DelayedRewardWrapper.reward_buffer self'))%Z.
Proof.
  unfold DelayedRewardWrapper.__init__, deque.new, bind at 1.
  unfold bind at 1.
  destruct (Z.ltb_spec (Z.of_nat (S m)) 0) as [Hneg | _]; [lia |].
  unfold ret at 1. unfold ret at 1. intros Hrun.
  destruct (delayed_queue_bound_run m calls e [] w w' self' rs
              ltac:(cbn; lia) Hrun) as (Hd & Hmax & Hlen).
  rewrite Hmax, Hd. split; [reflexivity |]. unfold deque.len. lia.
Qed.

(** X2. With [delay_steps = 1] the wrapper delays nothing: any sequence
    of steps and resets gives the rewards, the random state and the
    failures of the same calls on the wrapped environment, and the queue
    stays empty. *)
Theorem delayed_reward_delay_one_is_transparent (calls : list Call) :
  forall e (w : World),
    run (state e 1%Z []) calls w
    = lift_run (fun e' => state e' 1%Z []) (run e calls w).
Proof.
  induction calls as [| [action |] calls IH]; intros e w.
  - reflexivity.
  - cbn [run]. unfold bind at 1 3.
    cbn [env_step DelayedRewardWrapper.gym_env].
    pose proof (delayed_step_inner 0 [] e action w ltac:(cbn; lia)) as Hstep.
    change (Z.of_nat 1) with 1%Z in Hstep. rewrite Hstep. clear Hstep.
    destruct (env_step e action w) as [[[e1 tr] w1] | exc]; [| reflexivity].
    cbn [length Nat.eqb app tail hd tr_reward]. cbv beta iota.
    unfold bind. rewrite IH.
    destruct (run e1 calls w1) as [[[e2 rs] w2] | exc]; reflexivity.
  - cbn [run]. unfold bind.
    cbn [env_reset DelayedRewardWrapper.gym_env].
    rewrite delayed_reward_reset_keeps_queue.
    cbn [DelayedRewardWrapper.env DelayedRewardWrapper.delay_steps
         DelayedRewardWrapper.reward_buffer].
    destruct (env_reset e w) as [[[e1 oi] w1] | exc]; [| reflexivity].
    apply IH.
Qed.

(** X3. A negative [delay_steps] is refused at construction with
    [ValueError] (by the deque); [delay_steps = 0] is accepted, but the
    first step then fails with [IndexError] once the inner step has
    returned, since nothing can be queued and [popleft] finds the deque
    empty. *)
Theorem delayed_reward_degenerate_delays
    e (d : Z) (action : Action) (w w1 : World) e1 (tr : Transition) :
  env_step e action w = Ok ((e1, tr), w1) ->
  ((d < 0)%Z -> DelayedRewardWrapper.__init__ e d w = Raise ValueError)
  /\ DelayedRewardWrapper.__init__ e 0 w = Ok (state e 0%Z [], w)
  /\ DelayedRewardWrapper.step (state e 0%Z []) action w = Raise IndexError.
Proof.
  intros Hinner. split; [| split].
  - intros Hneg. unfold DelayedRewardWrapper.__init__, deque.new, bind.
    destruct (Z.ltb_spec d 0) as [_ | Hge]; [reflexivity | lia].
  - reflexivity.
  - unfold DelayedRewardWrapper.step, bind at 1.
    cbn [DelayedRewardWrapper.env]. rewrite Hinner. reflexivity.
Qed.
End DelayedRewardQueue.

Lemma delayed_reward_queue_stays_below_capacity_witness :
  (deque.len (deque.mk (map Finite [2%Q; 3%Q]) 3)
   < deque.maxlen (deque.mk (map Finite [2%Q; 3%Q]) 3))%Z.
Proof.
  apply (delayed_reward_queue_stays_below_capacity
           (HE := ScriptedEnv.gym_env)
           (rewards_script [1; 2; 3]) 2
           [CallStep []; CallStep []; CallReset; CallStep []]
           const_world const_world
           (state (ScriptedEnv.mk [] (reward_only 0) [[]; []; []]) 3%Z
              (map Finite [2; 3]))
           (map Finite [0; 0; 1]) ltac:(reflexivity)).
Defined.

Lemma delayed_reward_degenerate_delays_witness :
  DelayedRewardWrapper.__init__ (rewards_script [1]) (-2) const_world
  = Raise ValueError
  /\ DelayedRewardWrapper.step (state (rewards_script [1]) 0%Z []) []
       const_world = Raise IndexError.
Proof.
  destruct (delayed_reward_degenerate_delays
              (HE := ScriptedEnv.gym_env)
              (rewards_script [1]) (-2) [] const_world const_world
              (ScriptedEnv.mk [] (reward_only 0) [[]]) (reward_only 1)
              ltac:(reflexivity)) as (Hneg & _ & Hzero).
  split; [apply Hneg; reflexivity | exact Hzero].
Defined.

(** ** ActionMaskingWrapper *)

Section ActionMasking.
Context {E : Type} {HE : GymEnv E}.
Implicit Types (self : ActionMaskingWrapper.t E).

(** A step takes one draw of [random.random()] and steps the wrapped
    environment once, on the action or on zeros, and returns its
    transition as it came. *)
Lemma action_masking_step_inner self (action : Action) (w : World) :
  ActionMaskingWrapper.step self action w
  = match env_step (ActionMaskingWrapper.env self)
            (if Qltb (draws (py_random w) (cursor (py_random w)))
                     (ActionMaskingWrapper.mask_prob self)
             then replicate (length action) 0 else action)
            (mkWorld (np_random w)
               (mkRandomState (draws (py_random w))
                              (S (cursor (py_random w))))) with
    | Ok ((env', tr), w') =>
        Ok ((ActionMaskingWrapper.mk env'
               (ActionMaskingWrapper.mask_prob self), tr), w')
    | Raise exc => Raise exc
    end.
Proof.
  unfold ActionMaskingWrapper.step, bind at 1, random_random, next_draw.
  unfold bind.
  destruct (env_step _ _ _) as [[[env' tr] w'] | exc]; reflexivity.
Qed.

(** X4. With draws of [random.random()] in [0, 1): a [mask_prob] of zero
    or less never masks (the wrapped environment gets the action as
    given), and a [mask_prob] of one or more always masks (it gets a zero
    vector of the action's length).  Either way the wrapped environment
    is stepped once and its transition is returned unchanged. *)
Theorem action_masking_never_and_always self (action : Action) (w : World) :
  unit_py_draws w ->
  (ActionMaskingWrapper.mask_prob self <= 0 ->
   ActionMaskingWrapper.step self action w
   = match env_step (ActionMaskingWrapper.env self) action
             (mkWorld (np_random w)
                (mkRandomState (draws (py_random w))
                               (S (cursor (py_random w))))) with
     | Ok ((env', tr), w') =>
         Ok ((ActionMaskingWrapper.mk env'
                (ActionMaskingWrapper.mask_prob self), tr), w')
     | Raise exc => Raise exc
     end)
  /\ (1 <= ActionMaskingWrapper.mask_prob self ->
      ActionMaskingWrapper.step self action w
      = match env_step (ActionMaskingWrapper.env self)
                (replicate (length action) 0)
                (mkWorld (np_random w)
                   (mkRandomState (draws (py_random w))
                                  (S (cursor (py_random w))))) with
        | Ok ((env', tr), w') =>
            Ok ((ActionMaskingWrapper.mk env'
                   (ActionMaskingWrapper.mask_prob self), tr), w')
        | Raise exc => Raise exc
        end).
Proof.
  intros Hdraws.
  destruct (Hdraws (cursor (py_random w))) as [Hlo Hhi].
  split; intros Hp; rewrite action_masking_step_inner.
  - destruct (Qltb _ _) eqn:Hlt; [| reflexivity].
    apply Qltb_true in Hlt. lra.
  - destruct (Qltb _ _) eqn:Hlt; [reflexivity |].
    apply Qltb_false in Hlt. lra.
Qed.
End ActionMasking.

Lemma action_masking_never_and_always_witness :
  ActionMaskingWrapper.step
    (ActionMaskingWrapper.mk (EchoEnv.mk []) 0) [3; 4] const_world
  = Ok ((ActionMaskingWrapper.mk (EchoEnv.mk [3; 4]) 0,
         mkTransition [3; 4] 0 false false ∅),
        mkWorld (np_random const_world)
                (mkRandomState (draws (py_random const_world)) 1))
  /\ ActionMaskingWrapper.step
       (ActionMaskingWrapper.mk (EchoEnv.mk []) 1) [3; 4] const_world
     = Ok ((ActionMaskingWrapper.mk (EchoEnv.mk [0; 0]) 1,
            mkTransition [0; 0] 0 false false ∅),
           mkWorld (np_random const_world)
                   (mkRandomState (draws (py_random const_world)) 1)).
Proof.
  assert (Hdraws : unit_py_draws const_world)
    by (intros i; split; vm_compute; congruence).
  split.
  - rewrite (proj1 (action_masking_never_and_always
                      (HE := EchoEnv.gym_env)
                      (ActionMaskingWrapper.mk (EchoEnv.mk []) 0) [3; 4]
                      const_world Hdraws));
      [reflexivity | vm_compute; congruence].
  - rewrite (proj2 (action_masking_never_and_always
                      (HE := EchoEnv.gym_env)
                      (ActionMaskingWrapper.mk (EchoEnv.mk []) 1) [3; 4]
                      const_world Hdraws));
      [reflexivity | vm_compute; congruence].
Defined.

(** ** NoisyObservationWrapper *)

(** Adding a list of numbers equal to zero changes no component. *)
Lemma zip_with_plus_zero (noise : list Q) : forall obs : list Q,
  length noise = length obs ->
  Forall (fun z => z == 0) noise ->
  Forall2 Qeq (zip_with Qplus obs noise) obs.
Proof.
  induction noise as [| z noise IH]; intros [| x obs] Hlen Hzero;
    try discriminate Hlen; [constructor |].
  inversion Hzero as [| ? ? Hz Hrest]; subst.
  cbn [zip_with]. constructor.
  - rewrite Hz. ring.
  - apply IH; [cbn [length] in Hlen; lia | exact Hrest].
Qed.

Section NoisyObservation.
Context {E : Type} {HE : GymEnv E}.
Implicit Types (self : NoisyObservationWrapper.t E).

(** X5. With [noise_scale = 0] the observation comes back unchanged,
    component for component, whatever the generator draws, and a step
    returns the inner transition with that observation. *)
Theorem noisy_observation_zero_scale_is_identity self :
  NoisyObservationWrapper.noise_scale self == 0 ->
  (forall (obs : Obs) (w : World),
     exists (obs' : Obs) (w' : World),
       NoisyObservationWrapper.observation self obs w = Ok (obs', w')
       /\ Forall2 Qeq obs' obs)
  /\ (forall (action : Action) (w w1 : World) env' (tr : Transition),
        env_step (NoisyObservationWrapper.env self) action w
        = Ok ((env', tr), w1) ->
        exists (obs' : Obs) (w' : World),
          NoisyObservationWrapper.step self action w
          = Ok ((NoisyObservationWrapper.mk env'
                   (NoisyObservationWrapper.noise_scale self),
                 mkTransition obs' (tr_reward tr) (tr_terminated tr)
                              (tr_truncated tr) (tr_info tr)), w')
          /\ Forall2 Qeq obs' (tr_observation tr)).
Proof.
  intros Hscale.
  assert (Hobs : forall (obs : Obs) (w : World),
             exists (obs' : Obs) (w' : World),
               NoisyObservationWrapper.observation self obs w = Ok (obs', w')
               /\ Forall2 Qeq obs' obs).
  { intros obs w.
    destruct (np_random_rand_draws (length obs) w) as (zs & Hzs & Hlen & _).
    unfold NoisyObservationWrapper.observation, np_random_normal.
    destruct (Qltb _ 0) eqn:Hneg; [apply Qltb_true in Hneg; lra |].
    unfold bind, ret. rewrite Hzs. do 2 eexists. split; [reflexivity |].
    apply zip_with_plus_zero.
    - rewrite length_map. exact Hlen.
    - apply Forall_forall. intros z Hz. apply list_elem_of_In in Hz.
      apply in_map_iff in Hz. destruct Hz as (z0 & <- & _).
      rewrite Hscale. ring. }
  split; [exact Hobs |].
  intros action w w1 env' tr Hinner.
  destruct (Hobs (tr_observation tr) w1) as (obs' & w' & Hw' & Heq).
  exists obs', w'. split; [| exact Heq].
  unfold NoisyObservationWrapper.step, bind at 1. rewrite Hinner.
  cbv beta iota. unfold bind at 1. rewrite Hw'. reflexivity.
Qed.

(** X6. A negative [noise_scale] is accepted by the constructor, but
    [observation] then fails with [ValueError] (raised by the normal
    sampler), and so do a step and a reset once the wrapped environment
    has returned. *)
Theorem noisy_observation_negative_scale_fails self :
  NoisyObservationWrapper.noise_scale self < 0 ->
  (forall (w : World),
     NoisyObservationWrapper.__init__
       (NoisyObservationWrapper.env self)
       (NoisyObservationWrapper.noise_scale self) w = Ok (self, w))
  /\ (forall (obs : Obs) (w : World),
        NoisyObservationWrapper.observation self obs w = Raise ValueError)
  /\ (forall (action : Action) (w w1 : World) env' (tr : Transition),
        env_step (NoisyObservationWrapper.env self) action w
        = Ok ((env', tr), w1) ->
        NoisyObservationWrapper.step self action w = Raise ValueError)
  /\ (forall (w w1 : World) env' oi,
        env_reset (NoisyObservationWrapper.env self) w = Ok ((env', oi), w1) ->
        NoisyObservationWrapper.reset self w = Raise ValueError).
Proof.
  intros Hneg.
  assert (Hobs : forall (obs : Obs) (w : World),
             NoisyObservationWrapper.observation self obs w
             = Raise ValueError).
  { intros obs w.
    unfold NoisyObservationWrapper.observation, np_random_normal.
    apply Qltb_true in Hneg. rewrite Hneg. reflexivity. }
  split; [| split; [exact Hobs | split]].
  - intros w. destruct self. reflexivity.
  - intros action w w1 env' tr Hinner.
    unfold NoisyObservationWrapper.step, bind at 1. rewrite Hinner.
    cbv beta iota. unfold bind at 1. rewrite Hobs. reflexivity.
  - intros w w1 env' oi Hinner.
    unfold NoisyObservationWrapper.reset, bind at 1. rewrite Hinner.
    cbv beta iota. unfold bind at 1. rewrite Hobs. reflexivity.
Qed.
End NoisyObservation.

Lemma noisy_observation_zero_scale_is_identity_witness :
  exists (obs' : Obs) (w' : World),
    NoisyObservationWrapper.observation
      (NoisyObservationWrapper.mk (EchoEnv.mk []) 0) [3; - (1 # 2)]
      const_world = Ok (obs', w')
    /\ Forall2 Qeq obs' [3; - (1 # 2)].
Proof.
  apply (proj1 (noisy_observation_zero_scale_is_identity
                  (HE := EchoEnv.gym_env)
                  (NoisyObservationWrapper.mk (EchoEnv.mk []) 0)
                  ltac:(reflexivity))).
Defined.

Lemma noisy_observation_negative_scale_fails_witness :
  NoisyObservationWrapper.step
    (NoisyObservationWrapper.mk (EchoEnv.mk []) (- (1 # 20))) [1; 2]
    const_world = Raise ValueError.
Proof.
  apply (proj1 (proj2 (proj2 (noisy_observation_negative_scale_fails
                                (HE := EchoEnv.gym_env)
                                (NoisyObservationWrapper.mk (EchoEnv.mk [])
                                   (- (1 # 20)))
                                ltac:(reflexivity))))
           [1; 2] const_world const_world (EchoEnv.mk [1; 2])
           (mkTransition [1; 2] 0 false false ∅)).
  reflexivity.
Defined.

(** ** PartialObservabilityWrapper: masking in general *)

(** A mask that is false everywhere leaves zeros. *)
Lemma np_where_none_observed (ratio : Q) (us : list Q) : forall obs : list Q,
  length us = length obs ->
  Forall (fun u => ratio <= u) us ->
  PartialObservabilityWrapper.np_where
    (map (fun u => Qltb u ratio) us) obs = replicate (length obs) 0.
Proof.
  unfold PartialObservabilityWrapper.np_where.
  induction us as [| u us IH]; intros [| x obs] Hlen Hall;
    try discriminate Hlen; [reflexivity |].
  inversion Hall as [| ? ? Hu Hrest]; subst.
  cbn [map zip_with length replicate]. apply Qltb_false in Hu. rewrite Hu.
  f_equal. apply IH; [| exact Hrest].
  cbn [length] in Hlen. lia.
Qed.

(** Whatever the mask, each component is kept or replaced by zero. *)
Lemma np_where_keeps_or_zeroes (mask : list bool) : forall obs : list Q,
  length mask = length obs ->
  Forall2 (fun y x => y = x \/ y = 0)
          (PartialObservabilityWrapper.np_where mask obs) obs.
Proof.
  unfold PartialObservabilityWrapper.np_where.
  induction mask as [| b mask IH]; intros [| x obs] Hlen;
    try discriminate Hlen; [constructor |].
  cbn [zip_with]. constructor.
  - destruct b; auto.
  - apply IH. cbn [length] in Hlen. lia.
Qed.

Section PartialObservabilityMasking.
Context {E : Type} {HE : GymEnv E}.
Implicit Types (self : PartialObservabilityWrapper.t E).

(** X7. With an [observable_ratio] of zero or less and draws from
    [0, 1), every component is masked: [observation] returns a zero
    vector of the observation's length. *)
Theorem partial_observability_zero_ratio_masks_all self
    (obs : Obs) (w : World) :
  PartialObservabilityWrapper.observable_ratio self <= 0 ->
  unit_draws w ->
  exists w' : World,
    PartialObservabilityWrapper.observation self obs w
    = Ok (replicate (length obs) 0, w').
Proof.
  intros Hratio Hdraws.
  destruct (np_random_rand_draws (length obs) w) as (us & Hus & Hlen & Hall).
  eexists. unfold PartialObservabilityWrapper.observation, bind, ret.
  rewrite Hus. rewrite np_where_none_observed; [reflexivity | exact Hlen |].
  eapply Forall_impl; [exact Hall |].
  intros u [i ->]. cbn beta. destruct (Hdraws i) as [Hlo _]. lra.
Qed.

(** X8. For every ratio and every draw, [observation] returns a vector
    of the same length whose components are each the input component or
    zero; a step returns such an observation and the inner reward,
    terminated, truncated and info unchanged. *)
Theorem partial_observability_keeps_or_zeroes self :
  (forall (obs : Obs) (w : World),
     exists (obs' : Obs) (w' : World),
       PartialObservabilityWrapper.observation self obs w = Ok (obs', w')
       /\ Forall2 (fun y x => y = x \/ y = 0) obs' obs)
  /\ (forall (action : Action) (w w1 : World) env' (tr : Transition),
        env_step (PartialObservabilityWrapper.env self) action w
        = Ok ((env', tr), w1) ->
        exists (obs' : Obs) (w' : World),
          PartialObservabilityWrapper.step self action w
          = Ok ((PartialObservabilityWrapper.mk env'
                   (PartialObservabilityWrapper.observable_ratio self),
                 mkTransition obs' (tr_reward tr) (tr_terminated tr)
                              (tr_truncated tr) (tr_info tr)), w')
          /\ Forall2 (fun y x => y = x \/ y = 0) obs' (tr_observation tr)).
Proof.
  assert (Hobs : forall (obs : Obs) (w : World),
             exists (obs' : Obs) (w' : World),
               PartialObservabilityWrapper.observation self obs w
               = Ok (obs', w')
               /\ Forall2 (fun y x => y = x \/ y = 0) obs' obs).
  { intros obs w.
    destruct (np_random_rand_draws (length obs) w) as (us & Hus & Hlen & _).
    unfold PartialObservabilityWrapper.observation, bind, ret.
    rewrite Hus. do 2 eexists. split; [reflexivity |].
    apply np_where_keeps_or_zeroes. rewrite length_map. exact Hlen. }
  split; [exact Hobs |].
  intros action w w1 env' tr Hinner.
  destruct (Hobs (tr_observation tr) w1) as (obs' & w' & Hw' & Hrel).
  exists obs', w'. split; [| exact Hrel].
  unfold PartialObservabilityWrapper.step, bind at 1. rewrite Hinner.
  cbv beta iota. unfold bind at 1. rewrite Hw'. reflexivity.
Qed.
End PartialObservabilityMasking.

Lemma partial_observability_zero_ratio_masks_all_witness :
  exists w' : World,
    PartialObservabilityWrapper.observation
      (PartialObservabilityWrapper.mk (EchoEnv.mk []) 0)
      [3; - (1 # 2); 7] const_world
    = Ok ([0; 0; 0], w').
Proof.
  apply (partial_observability_zero_ratio_masks_all
           (PartialObservabilityWrapper.mk (EchoEnv.mk []) 0)
           [3; - (1 # 2); 7] const_world).
  - vm_compute. congruence.
  - intros i. split; vm_compute; congruence.
Defined.

Lemma partial_observability_keeps_or_zeroes_witness :
  exists (obs' : Obs) (w' : World),
    PartialObservabilityWrapper.step
      (PartialObservabilityWrapper.mk (EchoEnv.mk []) (1 # 2)) [3; 4]
      const_world
    = Ok ((PartialObservabilityWrapper.mk (EchoEnv.mk [3; 4]) (1 # 2),
           mkTransition obs' 0 false false ∅), w')
    /\ Forall2 (fun y x => y = x \/ y = 0) obs' [3; 4].
Proof.
  apply (proj2 (partial_observability_keeps_or_zeroes
                  (HE := EchoEnv.gym_env)
                  (PartialObservabilityWrapper.mk (EchoEnv.mk []) (1 # 2)))
           [3; 4] const_world const_world (EchoEnv.mk [3; 4])
           (mkTransition [3; 4] 0 false false ∅)).
  reflexivity.
Defined.

(** ** MultiTimescaleWrapper: steps and factors *)

(** [np.random.uniform] returns one value per requested element. *)
Lemma np_random_uniform_draws (low high : Q) (n : nat) (w : World) :
  exists us : list Q,
    np_random_uniform low high n w
    = Ok (map (fun u => low + (high - low) * u) us,
          mkWorld (mkRandomState (draws (np_random w))
                                 (cursor (np_random w) + n))
                  (py_random w))
    /\ length us = n.
Proof.
  destruct (np_random_rand_draws n w) as (us & Hus & Hlen & _).
  exists us. split; [| exact Hlen].
  unfold np_random_uniform, bind, ret. rewrite Hus. reflexivity.
Qed.

Lemma perturbed_action_length (cs : list Q) : forall action : list Q,
  length cs = length action ->
  length (zip_with (fun a c => a * (1 + c)) action cs) = length action.
Proof.
  induction cs as [| c cs IH]; intros [| a action] Hlen;
    try discriminate Hlen; [reflexivity |].
  cbn [zip_with length]. f_equal. apply IH. cbn [length] in Hlen. lia.
Qed.

Lemma perturbed_action_unchanged (cs : list Q) : forall action : list Q,
  length cs = length action ->
  Forall (fun c => c == 0) cs ->
  Forall2 Qeq (zip_with (fun a c => a * (1 + c)) action cs) action.
Proof.
  induction cs as [| c cs IH]; intros [| a action] Hlen Hzero;
    try discriminate Hlen; [constructor |].
  inversion Hzero as [| ? ? Hc Hrest]; subst.
  cbn [zip_with]. constructor.
  - rewrite Hc. ring.
  - apply IH; [cbn [length] in Hlen; lia | exact Hrest].
Qed.

Section MultiTimescaleSteps.
Context {E : Type} {HE : GymEnv E}.
Implicit Types (self : MultiTimescaleWrapper.t E).

(** A step draws one perturbation per action component and steps the
    wrapped environment once on the perturbed action. *)
Lemma multi_timescale_step_inner self (action : Action) (w : World) :
  exists us : list Q,
    length us = length action
    /\ MultiTimescaleWrapper.step self action w
       = match env_step (MultiTimescaleWrapper.env self)
               (zip_with (fun a c => a * (1 + c)) action
                  (map (fun u =>
                          - MultiTimescaleWrapper.fast_scale self
                          + (MultiTimescaleWrapper.fast_scale self
                             - - MultiTimescaleWrapper.fast_scale self) * u)
                       us))
               (mkWorld (mkRandomState (draws (np_random w))
                           (cursor (np_random w) + length action))
                        (py_random w)) with
         | Ok ((env', tr), w') =>
             Ok ((MultiTimescaleWrapper.mk env'
                    (MultiTimescaleWrapper.slow_factor self)
                    (MultiTimescaleWrapper.fast_factor self)
                    (MultiTimescaleWrapper.slow_scale self)
                    (MultiTimescaleWrapper.fast_scale self)
                    (MultiTimescaleWrapper.max_slow_factor self)
                    (MultiTimescaleWrapper.episode_count self),
                  mkTransition (tr_observation tr)
                    (np_mul (tr_reward tr)
                            (MultiTimescaleWrapper.slow_factor self))
                    (tr_terminated tr) (tr_truncated tr) (tr_info tr)), w')
         | Raise exc => Raise exc
         end.
Proof.
  destruct (np_random_uniform_draws
              (- MultiTimescaleWrapper.fast_scale self)
              (MultiTimescaleWrapper.fast_scale self)
              (length action) w) as (us & Hus & Hlen).
  exists us. split; [exact Hlen |].
  unfold MultiTimescaleWrapper.step, bind at 1. rewrite Hus.
  unfold bind, ret.
  destruct (env_step _ _ _) as [[[env' tr] w'] | exc]; reflexivity.
Qed.

(** X9. A step always steps the wrapped environment once, on an action
    of the same length (componentwise equal to the given one when
    [fast_scale = 0]); it returns the inner observation, terminated,
    truncated and info with the inner reward multiplied by [slow_factor],
    and changes none of the wrapper's factors or counters. *)
Theorem multi_timescale_step_scales_reward self (action : Action)
    (w : World) :
  exists (action' : Action) (w1 : World),
    MultiTimescaleWrapper.step self action w
    = match env_step (MultiTimescaleWrapper.env self) action' w1 with
      | Ok ((env', tr), w') =>
          Ok ((MultiTimescaleWrapper.mk env'
                 (MultiTimescaleWrapper.slow_factor self)
                 (MultiTimescaleWrapper.fast_factor self)
                 (MultiTimescaleWrapper.slow_scale self)
                 (MultiTimescaleWrapper.fast_scale self)
                 (MultiTimescaleWrapper.max_slow_factor self)
                 (MultiTimescaleWrapper.episode_count self),
               mkTransition (tr_observation tr)
                 (np_mul (tr_reward tr)
                            (MultiTimescaleWrapper.slow_factor self))
                 (tr_terminated tr) (tr_truncated tr) (tr_info tr)), w')
      | Raise exc => Raise exc
      end
    /\ length action' = length action
    /\ (MultiTimescaleWrapper.fast_scale self == 0 ->
        Forall2 Qeq action' action).
Proof.
  destruct (multi_timescale_step_inner self action w) as (us & Hlen & Hstep).
  do 2 eexists. split; [exact Hstep | split].
  - apply perturbed_action_length. rewrite length_map. exact Hlen.
  - intros Hfast. apply perturbed_action_unchanged.
    + rewrite length_map. exact Hlen.
    + apply Forall_forall. intros c Hc. apply list_elem_of_In in Hc.
      apply in_map_iff in Hc. destruct Hc as (u & <- & _).
      rewrite Hfast. ring.
Qed.

(** Over any sequence of steps and resets: a property of [slow_factor]
    that every increment below the maximum preserves still holds at the
    end, [fast_factor] stays [1] if it was, [episode_count] grows by the
    number of resets, and the three parameters are unchanged. *)
Lemma multi_timescale_run_invariant (P : Q -> Prop) (ss mx : Q)
    (calls : list Call) :
  (forall sf, P sf -> sf < mx -> P (sf + ss)) ->
  forall self (w w' : World) self' (rs : list npfloat),
    MultiTimescaleWrapper.slow_scale self = ss ->
    MultiTimescaleWrapper.max_slow_factor self = mx ->
    MultiTimescaleWrapper.fast_factor self = 1 ->
    P (MultiTimescaleWrapper.slow_factor self) ->
    run self calls w = Ok ((self', rs), w') ->
    P (MultiTimescaleWrapper.slow_factor self')
    /\ MultiTimescaleWrapper.fast_factor self' = 1
    /\ MultiTimescaleWrapper.episode_count self'
       = (MultiTimescaleWrapper.episode_count self + count_resets calls)%Z
    /\ MultiTimescaleWrapper.slow_scale self' = ss
    /\ MultiTimescaleWrapper.fast_scale self'
       = MultiTimescaleWrapper.fast_scale self
    /\ MultiTimescaleWrapper.max_slow_factor self' = mx.
Proof.
  intros Hincr.
  induction calls as [| [action |] calls IH];
    intros self w w' self' rs Hss Hmx Hff HP Hrun.
  - cbn in Hrun. unfold ret in Hrun. injection Hrun as <- _ _.
    cbn [count_resets]. rewrite Z.add_0_r. auto 10.
  - cbn [run] in Hrun. unfold bind at 1 in Hrun.
    cbn [env_step MultiTimescaleWrapper.gym_env] in Hrun.
    destruct (multi_timescale_step_inner self action w)
      as (us & _ & Hstep).
    rewrite Hstep in Hrun.
    destruct (env_step _ _ _) as [[[env' tr] w2] | exc];
      [| discriminate Hrun].
    cbv beta iota in Hrun. unfold bind at 1 in Hrun.
    destruct (run _ calls w2) as [[[self2 rs2] w3] | exc] eqn:Hrest;
      [| discriminate Hrun].
    unfold ret in Hrun. injection Hrun as <- _ _.
    refine (IH _ _ _ _ _ _ _ _ _ Hrest); assumption.
  - cbn [run] in Hrun. unfold bind at 1 in Hrun.
    cbn [env_reset MultiTimescaleWrapper.gym_env] in Hrun.
    rewrite multi_timescale_reset_inner in Hrun.
    destruct (env_reset _ w) as [[[env' oi] w1] | exc]; [| discriminate Hrun].
    set (self1 := MultiTimescaleWrapper.mk env' _ _ _ _ _ _) in Hrun.
    assert (HP1 : P (MultiTimescaleWrapper.slow_factor self1)).
    { cbn [self1 MultiTimescaleWrapper.slow_factor]. rewrite Hss, Hmx.
      destruct (Qltb _ mx) eqn:Hlt; [| exact HP].
      apply Qltb_true in Hlt. exact (Hincr _ HP Hlt). }
    destruct (IH self1 w1 w' self' rs Hss Hmx eq_refl HP1 Hrun)
      as (H1 & H2 & H3 & H4 & H5 & H6).
    cbn [self1 MultiTimescaleWrapper.episode_count
         MultiTimescaleWrapper.fast_scale] in H3, H5.
    cbn [count_resets]. repeat split; try assumption. lia.
Qed.
End MultiTimescaleSteps.

Section MultiTimescaleRuns.
Context {E : Type} {HE : GymEnv E}.

(** X10. After any sequence of steps and resets of a new wrapper,
    [get_factors] returns [fast_factor = 1.0], [episode_count] is the
    number of resets (steps do not count), and [slow_scale],
    [fast_scale] and [max_slow_factor] are as constructed. *)
Theorem multi_timescale_counters_after_run (e : E) (ss fs mx : Q)
    (calls : list Call) (w w' : World) self' (rs : list npfloat) :
  (do self <- MultiTimescaleWrapper.__init__ e ss fs mx ;
   run self calls) w = Ok ((self', rs), w') ->
  MultiTimescaleWrapper.get_factors self'
  = (MultiTimescaleWrapper.slow_factor self', 1)
  /\ MultiTimescaleWrapper.episode_count self' = count_resets calls
  /\ MultiTimescaleWrapper.slow_scale self' = ss
  /\ MultiTimescaleWrapper.fast_scale self' = fs
  /\ MultiTimescaleWrapper.max_slow_factor self' = mx.
Proof.
  unfold MultiTimescaleWrapper.__init__, bind at 1, ret at 1. intros Hrun.
  destruct (multi_timescale_run_invariant (fun _ => True) ss mx calls
              ltac:(auto) (MultiTimescaleWrapper.mk e 1 1 ss fs mx 0%Z)
              w w' self' rs eq_refl eq_refl eq_refl I Hrun)
    as (_ & Hff & Hec & Hss & Hfs & Hmx).
  unfold MultiTimescaleWrapper.get_factors. rewrite Hff.
  cbn [MultiTimescaleWrapper.episode_count
       MultiTimescaleWrapper.fast_scale] in Hec, Hfs.
  repeat split; try assumption; lia.
Qed.

(** X11. For [slow_scale >= 0] and [1 < max_slow_factor + slow_scale],
    after any sequence of steps and resets of a new wrapper
    [slow_factor] is at least [1] and below
    [max_slow_factor + slow_scale]: it can pass [max_slow_factor], but by
    less than one increment. *)
Theorem slow_factor_overshoot_below_one_increment (e : E) (ss fs mx : Q)
    (calls : list Call) (w w' : World) self' (rs : list npfloat) :
  0 <= ss ->
  1 < mx + ss ->
  (do self <- MultiTimescaleWrapper.__init__ e ss fs mx ;
   run self calls) w = Ok ((self', rs), w') ->
  1 <= MultiTimescaleWrapper.slow_factor self'
  /\ MultiTimescaleWrapper.slow_factor self' < mx + ss.
Proof.
  intros Hss Hmx.
  unfold MultiTimescaleWrapper.__init__, bind at 1, ret at 1. intros Hrun.
  destruct (multi_timescale_run_invariant
              (fun sf => 1 <= sf /\ sf < mx + ss) ss mx calls
              ltac:(intros sf [Hlo Hhi] Hlt; split; lra)
              (MultiTimescaleWrapper.mk e 1 1 ss fs mx 0%Z)
              w w' self' rs eq_refl eq_refl eq_refl
              ltac:(cbn; split; lra) Hrun) as (Hbound & _).
  exact Hbound.
Qed.
End MultiTimescaleRuns.

Lemma multi_timescale_step_scales_reward_witness :
  exists (action' : Action) (w1 : World),
    MultiTimescaleWrapper.step
      (MultiTimescaleWrapper.mk (rewards_script [4]) 3 1 (1 # 2) 0 5 2%Z)
      [1; 2] const_world
    = Ok ((MultiTimescaleWrapper.mk
             (ScriptedEnv.mk [] (reward_only 0) [action'])
             3 1 (1 # 2) 0 5 2%Z,
           mkTransition [] (4 * 3) false false ∅), w1)
    /\ Forall2 Qeq action' [1; 2].
Proof.
  destruct (multi_timescale_step_scales_reward
              (HE := ScriptedEnv.gym_env)
              (MultiTimescaleWrapper.mk (rewards_script [4]) 3 1 (1 # 2)
                 0 5 2%Z) [1; 2] const_world)
    as (action' & w1 & Hstep & _ & Hsame).
  exists action'. eexists. split.
  - rewrite Hstep. reflexivity.
  - apply Hsame. reflexivity.
Defined.

Lemma multi_timescale_counters_after_run_witness :
  MultiTimescaleWrapper.episode_count
    (MultiTimescaleWrapper.mk
       (ScriptedEnv.mk [] (reward_only 0) [[]])
       (1 + (1 # 2) + (1 # 2)) 1 (1 # 2) 0 5 2%Z)
  = count_resets [CallReset; CallStep []; CallReset].
Proof.
  apply (multi_timescale_counters_after_run
           (HE := ScriptedEnv.gym_env)
           (rewards_script [4]) (1 # 2) 0 5
           [CallReset; CallStep []; CallReset] const_world const_world
           (MultiTimescaleWrapper.mk
              (ScriptedEnv.mk [] (reward_only 0) [[]])
              (1 + (1 # 2) + (1 # 2)) 1 (1 # 2) 0 5 2%Z)
           [Finite (4 * (1 + (1 # 2)))]).
  reflexivity.
Defined.

Lemma slow_factor_overshoot_below_one_increment_witness :
  1 <= 1 + (3 # 10) + (3 # 10) + (3 # 10) + (3 # 10)
  /\ 1 + (3 # 10) + (3 # 10) + (3 # 10) + (3 # 10) < 2 + (3 # 10).
Proof.
  apply (slow_factor_overshoot_below_one_increment
           (HE := ScriptedEnv.gym_env)
           (rewards_script []) (3 # 10) (1 # 10) 2
           [CallReset; CallReset; CallReset; CallReset; CallReset]
           const_world const_world
           (MultiTimescaleWrapper.mk (rewards_script [])
              (1 + (3 # 10) + (3 # 10) + (3 # 10) + (3 # 10)) 1
              (3 # 10) (1 # 10) 2 5%Z) []);
    [vm_compute; congruence | reflexivity | reflexivity].
Defined.

(** ** MultiStepTaskWrapper: rewards and the counter *)

Section MultiStepTaskRuns.
Context {E : Type} {HE : GymEnv E}.
Implicit Types (self : MultiStepTaskWrapper.t E) (tr : Transition).

(** A step fails exactly when the inner step does. *)
Lemma multi_step_step_raise self (action : Action) (w : World) exc :
  env_step (MultiStepTaskWrapper.env self) action w = Raise exc ->
  MultiStepTaskWrapper.step self action w = Raise exc.
Proof.
  intros Hinner. unfold MultiStepTaskWrapper.step, bind at 1.
  rewrite Hinner. reflexivity.
Qed.

(** X13. With [penalize_non_goal = True] the reward of every step is one
    of [1.0], [-0.5] and [0.0], whatever reward the wrapped environment
    returned; the other fields of the transition are the inner ones. *)
Theorem multi_step_penalizing_rewards_are_sparse
    self (action : Action) (w w' : World) env' tr :
  MultiStepTaskWrapper.penalize_non_goal self = true ->
  env_step (MultiStepTaskWrapper.env self) action w = Ok ((env', tr), w') ->
  exists (r : Q) (c : Z),
    MultiStepTaskWrapper.step self action w
    = Ok ((MultiStepTaskWrapper.mk env'
             (MultiStepTaskWrapper.steps_to_goal self) c true
             (MultiStepTaskWrapper.goal_reached_condition self),
           mkTransition (tr_observation tr) r (tr_terminated tr)
                        (tr_truncated tr) (tr_info tr)), w')
    /\ (r = 1 \/ r = - (1 # 2) \/ r = 0).
Proof.
  intros Hpen Hinner.
  rewrite (multi_step_step_inner self action w w' env' tr Hinner), Hpen.
  destruct (truthy _); [do 2 eexists; split; [reflexivity | auto] |].
  destruct (_ <=? _)%Z; do 2 eexists; (split; [reflexivity | auto]).
Qed.

(** The counter after any sequence of steps and resets. *)
Lemma multi_step_counter_run (calls : list Call) :
  forall self (w w' : World) self' (rs : list npfloat),
    (0 <= MultiStepTaskWrapper.current_steps self)%Z ->
    run self calls w = Ok ((self', rs), w') ->
    MultiStepTaskWrapper.steps_to_goal self'
    = MultiStepTaskWrapper.steps_to_goal self
    /\ (0 <= MultiStepTaskWrapper.current_steps self')%Z
    /\ (calls = []
        \/ MultiStepTaskWrapper.current_steps self' = 0%Z
        \/ (MultiStepTaskWrapper.current_steps self'
            < MultiStepTaskWrapper.steps_to_goal self)%Z).
Proof.
  induction calls as [| [action |] calls IH];
    intros self w w' self' rs Hpos Hrun.
  - cbn in Hrun. unfold ret in Hrun. injection Hrun as <- _ _. auto.
  - cbn [run] in Hrun. unfold bind at 1 in Hrun.
    cbn [env_step MultiStepTaskWrapper.gym_env] in Hrun.
    destruct (env_step (MultiStepTaskWrapper.env self) action w)
      as [[[env' tr] w1] | exc] eqn:Hinner.
    2:{ rewrite (multi_step_step_raise self action w exc Hinner) in Hrun.
        discriminate Hrun. }
    rewrite (multi_step_step_inner self action w w1 env' tr Hinner) in Hrun.
    set (branch := if truthy _ then _ else _) in Hrun.
    assert (Hbranch : (0 <= snd branch)%Z
                      /\ (snd branch = 0%Z
                          \/ (snd branch
                              < MultiStepTaskWrapper.steps_to_goal self)%Z)).
    { subst branch. destruct (truthy _); [cbn; lia |].
      destruct (Z.leb_spec (MultiStepTaskWrapper.steps_to_goal self)
                  (MultiStepTaskWrapper.current_steps self + 1));
        cbn; lia. }
    destruct branch as [reward c]. cbn [snd] in Hbranch.
    cbv beta iota in Hrun. unfold bind at 1 in Hrun.
    destruct (run _ calls w1) as [[[self2 rs2] w2] | exc] eqn:Hrest;
      [| discriminate Hrun].
    unfold ret in Hrun. injection Hrun as <- _ _.
    lazymatch type of Hrest with
    | run ?s _ _ = _ =>
        destruct (IH s w1 w2 self2 rs2 (proj1 Hbranch) Hrest)
          as (Hstg & Hpos' & Hcases)
    end.
    cbn [MultiStepTaskWrapper.steps_to_goal
         MultiStepTaskWrapper.current_steps] in Hstg, Hcases.
    split; [exact Hstg |]. split; [exact Hpos' |]. right.
    destruct Hcases as [-> | Hcases]; [| exact Hcases].
    cbn in Hrest. unfold ret in Hrest. injection Hrest as <- _ _.
    cbn [MultiStepTaskWrapper.current_steps]. tauto.
  - cbn [run] in Hrun. unfold bind at 1 in Hrun.
    cbn [env_reset MultiStepTaskWrapper.gym_env] in Hrun.
    unfold MultiStepTaskWrapper.reset, bind at 1 in Hrun.
    destruct (env_reset _ w) as [[[env' oi] w1] | exc]; [| discriminate Hrun].
    unfold ret at 1 in Hrun.
    lazymatch type of Hrun with
    | run ?s _ _ = _ =>
        destruct (IH s w1 w' self' rs ltac:(cbn; lia) Hrun)
          as (Hstg & Hpos' & Hcases)
    end.
    cbn [MultiStepTaskWrapper.steps_to_goal
         MultiStepTaskWrapper.current_steps] in Hstg, Hcases.
    split; [exact Hstg |]. split; [exact Hpos' |]. right.
    destruct Hcases as [-> | Hcases]; [| exact Hcases].
    cbn in Hrun. unfold ret in Hrun. injection Hrun as <- _ _.
    cbn [MultiStepTaskWrapper.current_steps]. tauto.
Qed.

(** X14. After any sequence of steps and resets of a new wrapper the
    counter is never negative and is either zero or below
    [reward_goal_steps]: it never reaches the step limit, also when the
    limit is zero or negative (every step then resets it). *)
Theorem multi_step_counter_stays_below_limit (e : E)
    (reward_goal_steps : Z) (penalize_non_goal : bool)
    (cond : option (list Q -> gmap string PyVal -> PyVal))
    (calls : list Call) (w w' : World) self' (rs : list npfloat) :
  (do self <- MultiStepTaskWrapper.__init__ e reward_goal_steps
                penalize_non_goal cond ;
   run self calls) w = Ok ((self', rs), w') ->
  MultiStepTaskWrapper.steps_to_goal self' = reward_goal_steps
  /\ (0 <= MultiStepTaskWrapper.current_steps self')%Z
  /\ (MultiStepTaskWrapper.current_steps self' = 0%Z
      \/ (MultiStepTaskWrapper.current_steps self' < reward_goal_steps)%Z).
Proof.
  unfold MultiStepTaskWrapper.__init__, bind at 1, ret at 1. intros Hrun.
  lazymatch type of Hrun with
  | run ?s _ _ = _ =>
      destruct (multi_step_counter_run calls s w w' self' rs
                  ltac:(cbn; lia) Hrun) as (Hstg & Hpos & Hcases)
  end.
  cbn [MultiStepTaskWrapper.steps_to_goal] in Hstg, Hcases.
  split; [exact Hstg |]. split; [exact Hpos |].
  destruct Hcases as [-> | Hcases]; [| exact Hcases].
  cbn in Hrun. unfold ret in Hrun. injection Hrun as <- _ _.
  cbn. auto.
Qed.

(** While the goal is not reached and the limit is not met, steps emit
    zero and count up. *)
Lemma multi_step_counting_phase
    (cond : list Q -> gmap string PyVal -> PyVal) (stg : Z) (pen : bool)
    (actions : list Action) :
  (forall obs info, truthy (cond obs info) = false) ->
  forall (e : E) (c : Z) (w w' : World) e' (rs : list npfloat),
    (c + Z.of_nat (length actions) < stg)%Z ->
    run e (map CallStep actions) w = Ok ((e', rs), w') ->
    run (MultiStepTaskWrapper.mk e stg c pen cond) (map CallStep actions) w
    = Ok ((MultiStepTaskWrapper.mk e' stg
             (c + Z.of_nat (length actions))%Z pen cond,
           replicate (length actions) (Finite 0)), w').
Proof.
  intros Hnever.
  induction actions as [| action actions IH];
    intros e c w w' e' rs Hlimit Hrun.
  - cbn in Hrun. unfold ret in Hrun. injection Hrun as <- _ <-.
    cbn. rewrite Z.add_0_r. reflexivity.
  - cbn [map run] in Hrun. unfold bind at 1 in Hrun.
    destruct (env_step e action w) as [[[e1 tr] w1] | exc] eqn:Hinner;
      [| discriminate Hrun].
    unfold bind at 1 in Hrun.
    destruct (run e1 (map CallStep actions) w1) as [[[e2 rs1] w2] | exc]
      eqn:Hrest; [| discriminate Hrun].
    unfold ret in Hrun. injection Hrun as <- _ <-.
    cbn [map run length]. unfold bind at 1.
    cbn [env_step MultiStepTaskWrapper.gym_env].
    rewrite (multi_step_step_inner
               (MultiStepTaskWrapper.mk e stg c pen cond) action w w1 e1 tr
               Hinner).
    cbn [MultiStepTaskWrapper.goal_reached_condition
         MultiStepTaskWrapper.steps_to_goal
         MultiStepTaskWrapper.current_steps
         MultiStepTaskWrapper.penalize_non_goal].
    rewrite Hnever.
    cbn [length] in Hlimit.
    destruct (Z.leb_spec stg (c + 1)) as [Hle | _]; [lia |].
    cbv beta iota. unfold bind at 1.
    rewrite (IH e1 (c + 1)%Z w1 w2 e2 rs1 ltac:(lia) Hrest).
    unfold ret. cbn [tr_reward replicate].
    do 3 f_equal. f_equal. lia.
Qed.

(** X15. When the goal predicate never holds and
    [reward_goal_steps = n + 1], the first [n] steps of a new wrapper
    emit [0.0] and the next one, at the step limit, emits [-0.5] if
    [penalize_non_goal] is set (the inner reward otherwise) and puts the
    counter back to zero. *)
Theorem multi_step_penalty_at_the_step_limit
    (cond : list Q -> gmap string PyVal -> PyVal) (pen : bool)
    (actions : list Action) (action : Action)
    (e e1 e2 : E) (w w1 w2 : World) (rs : list npfloat) tr :
  (forall obs info, truthy (cond obs info) = false) ->
  run e (map CallStep actions) w = Ok ((e1, rs), w1) ->
  env_step e1 action w1 = Ok ((e2, tr), w2) ->
  (do self <- MultiStepTaskWrapper.__init__ e
                (Z.of_nat (S (length actions))) pen (Some cond) ;
   do '(self1, zeros) <- run self (map CallStep actions) ;
   do '(self2, last) <- MultiStepTaskWrapper.step self1 action ;
   ret (self2, zeros, tr_reward last)) w
  = Ok ((MultiStepTaskWrapper.mk e2 (Z.of_nat (S (length actions))) 0%Z
           pen cond,
         replicate (length actions) (Finite 0),
         if pen then Finite (- (1 # 2)) else tr_reward tr), w2).
Proof.
  intros Hnever Hrun Hinner.
  unfold MultiStepTaskWrapper.__init__, bind at 1, ret at 1.
  unfold bind at 1.
  rewrite (multi_step_counting_phase cond
             (Z.of_nat (S (length actions))) pen actions Hnever
             e 0%Z w w1 e1 rs ltac:(lia) Hrun).
  cbv beta iota. unfold bind at 1.
  rewrite (multi_step_timeout
             (MultiStepTaskWrapper.mk e1 (Z.of_nat (S (length actions)))
                (0 + Z.of_nat (length actions))%Z pen cond)
             action w1 w2 e2 tr Hinner (Hnever _ _) ltac:(cbn; lia)).
  unfold ret. cbn. reflexivity.
Qed.
End MultiStepTaskRuns.

Lemma multi_step_penalizing_rewards_are_sparse_witness :
  exists (r : Q) (c : Z),
    MultiStepTaskWrapper.step
      (MultiStepTaskWrapper.mk (rewards_script [7]) 3%Z 0%Z true
         MultiStepTaskWrapper._default_goal_reached_condition)
      [] const_world
    = Ok ((MultiStepTaskWrapper.mk
             (ScriptedEnv.mk [] (reward_only 0) [[]]) 3%Z c true
             MultiStepTaskWrapper._default_goal_reached_condition,
           mkTransition [] r false false ∅), const_world)
    /\ (r = 1 \/ r = - (1 # 2) \/ r = 0).
Proof.
  apply (multi_step_penalizing_rewards_are_sparse
           (HE := ScriptedEnv.gym_env)
           (MultiStepTaskWrapper.mk (rewards_script [7]) 3%Z 0%Z true
              MultiStepTaskWrapper._default_goal_reached_condition)
           [] const_world const_world
           (ScriptedEnv.mk [] (reward_only 0) [[]]) (reward_only 7)
           ltac:(reflexivity) ltac:(reflexivity)).
Defined.

Lemma multi_step_counter_stays_below_limit_witness :
  (0 <= 1)%Z /\ (1%Z = 0%Z \/ (1 < 2)%Z).
Proof.
  apply (multi_step_counter_stays_below_limit
           (HE := ScriptedEnv.gym_env)
           (rewards_script [5; 6; 7]) 2 true None
           [CallStep []; CallStep []; CallStep []]
           const_world const_world
           (MultiStepTaskWrapper.mk
              (ScriptedEnv.mk [] (reward_only 0) [[]; []; []]) 2%Z 1%Z true
              MultiStepTaskWrapper._default_goal_reached_condition)
           (map Finite [0; - (1 # 2); 0]) ltac:(reflexivity)).
Defined.

Lemma multi_step_penalty_at_the_step_limit_witness :
  (do self <- MultiStepTaskWrapper.__init__ (rewards_script [5; 6; 7])
                3 true (Some (fun _ _ => PyBool false)) ;
   do '(self1, zeros) <- run self [CallStep []; CallStep []] ;
   do '(self2, last) <- MultiStepTaskWrapper.step self1 [] ;
   ret (self2, zeros, tr_reward last)) const_world
  = Ok ((MultiStepTaskWrapper.mk
           (ScriptedEnv.mk [] (reward_only 0) [[]; []; []]) 3%Z 0%Z true
           (fun _ _ => PyBool false),
         map Finite [0; 0], Finite (- (1 # 2))), const_world).
Proof.
  exact (multi_step_penalty_at_the_step_limit
           (HE := ScriptedEnv.gym_env)
           (fun _ _ => PyBool false) true [[]; []] []
           (rewards_script [5; 6; 7])
           (ScriptedEnv.mk [reward_only 7] (reward_only 0) [[]; []])
           (ScriptedEnv.mk [] (reward_only 0) [[]; []; []])
           const_world const_world const_world (map Finite [5; 6])
           (reward_only 7)
           ltac:(reflexivity) ltac:(reflexivity) ltac:(reflexivity)).
Defined.

(** ** NonLinearDynamicsWrapper: before and beyond the threshold *)

Section NonLinearDynamicsRuns.
Context {E : Type} {HE : GymEnv E}.
Implicit Types (self : NonLinearDynamicsWrapper.t E).

(** X16. While the number of steps taken over the wrapper's lifetime
    does not exceed [dynamic_change_threshold], the wrapper is
    transparent: any sequence of steps and resets gives the rewards, the
    random state and the failures of the same calls on the wrapped
    environment, and only the step counter moves. *)
Theorem nonlinear_dynamics_transparent_up_to_threshold
    (calls : list Call) :
  forall self (w : World),
    (NonLinearDynamicsWrapper.step_count self + count_steps calls
     <= NonLinearDynamicsWrapper.dynamic_change_threshold self)%Z ->
    run self calls w
    = lift_run
        (fun e' =>
           NonLinearDynamicsWrapper.mk e'
             (NonLinearDynamicsWrapper.dynamic_change_threshold self)
             (NonLinearDynamicsWrapper.step_count self + count_steps calls)%Z)
        (run (NonLinearDynamicsWrapper.env self) calls w).
Proof.
  assert (Hcount : forall calls', (0 <= count_steps calls')%Z).
  { induction calls' as [| [a |] calls' IHc]; cbn [count_steps]; lia. }
  induction calls as [| [action |] calls IH]; intros self w Hbelow.
  - cbn [run count_steps lift_run]. unfold ret. rewrite Z.add_0_r.
    destruct self. reflexivity.
  - cbn [count_steps] in Hbelow. pose proof (Hcount calls) as Hnn.
    cbn [run]. unfold bind at 1 3.
    cbn [env_step NonLinearDynamicsWrapper.gym_env].
    destruct (nonlinear_step_inner self action w)
      as (action' & w1 & Hstep & Hsame).
    destruct Hsame as [-> ->]; [lia |]. rewrite Hstep.
    destruct (env_step (NonLinearDynamicsWrapper.env self) action w)
      as [[[env' tr] w2] | exc]; [| reflexivity].
    cbv beta iota. unfold bind.
    rewrite IH by (cbn [NonLinearDynamicsWrapper.step_count
                        NonLinearDynamicsWrapper.dynamic_change_threshold];
                   lia).
    cbn [NonLinearDynamicsWrapper.env NonLinearDynamicsWrapper.step_count
         NonLinearDynamicsWrapper.dynamic_change_threshold count_steps].
    destruct (run env' calls w2) as [[[e2 rs] w3] | exc]; [| reflexivity].
    cbn [lift_run]. unfold ret. rewrite Z.add_assoc. reflexivity.
  - cbn [count_steps] in Hbelow.
    cbn [run]. unfold bind.
    cbn [env_reset NonLinearDynamicsWrapper.gym_env].
    rewrite nonlinear_reset_inner.
    destruct (env_reset (NonLinearDynamicsWrapper.env self) w)
      as [[[env' oi] w1] | exc]; [| reflexivity].
    rewrite IH by exact Hbelow. reflexivity.
Qed.

(** X17. Beyond the threshold, with draws of [random.random()] in
    [0, 1): the wrapped environment is stepped on the action multiplied
    or divided, elementwise, by one factor [f] with [1.2 <= f <= 2.0]
    (the end-point [2.0] is included: rounding can make
    [random.uniform] return it); its transition is returned unchanged. *)
Theorem nonlinear_dynamics_scales_beyond_threshold
    self (action : Action) (w : World) :
  unit_py_draws w ->
  (NonLinearDynamicsWrapper.dynamic_change_threshold self
   < NonLinearDynamicsWrapper.step_count self + 1)%Z ->
  exists (f : Q) (action' : Action) (w1 : World),
    12 # 10 <= f /\ f <= 2
    /\ (action' = map (fun a => a * f) action
        \/ action' = map (fun a => a / f) action)
    /\ NonLinearDynamicsWrapper.step self action w
       = match env_step (NonLinearDynamicsWrapper.env self) action' w1 with
         | Ok ((env', tr), w') =>
             Ok ((NonLinearDynamicsWrapper.mk env'
                    (NonLinearDynamicsWrapper.dynamic_change_threshold self)
                    (NonLinearDynamicsWrapper.step_count self + 1)%Z, tr), w')
         | Raise exc => Raise exc
         end.
Proof.
  intros Hdraws Hover.
  destruct (Hdraws (S (cursor (py_random w)))) as [Hlo Hhi].
  exists ((12 # 10) + (2 - (12 # 10))
                      * draws (py_random w) (S (cursor (py_random w)))).
  unfold NonLinearDynamicsWrapper.step.
  destruct (Z.ltb_spec
              (NonLinearDynamicsWrapper.dynamic_change_threshold self)
              (NonLinearDynamicsWrapper.step_count self + 1))
    as [_ | Hunder]; [| lia].
  cbv [bind ret random_uniform random_random next_draw].
  cbn [py_random np_random draws cursor].
  destruct (Qltb (1 # 2) _);
    lazymatch goal with
    | |- context [env_step (NonLinearDynamicsWrapper.env self) ?a ?w0] =>
        exists a, w0
    end;
    (split; [lra |]); (split; [lra |]);
    (split; [first [left; reflexivity | right; reflexivity] |]);
    destruct (env_step _ _ _) as [[[env' tr] w'] | exc]; reflexivity.
Qed.
End NonLinearDynamicsRuns.

Lemma nonlinear_dynamics_transparent_up_to_threshold_witness :
  run (NonLinearDynamicsWrapper.mk (rewards_script [5; 6]) 2 0)
      [CallStep [1]; CallReset; CallStep [2]] const_world
  = Ok ((NonLinearDynamicsWrapper.mk
           (ScriptedEnv.mk [] (reward_only 0) [[1]; [2]]) 2 2,
         map Finite [5; 6]), const_world).
Proof.
  rewrite (nonlinear_dynamics_transparent_up_to_threshold
             (HE := ScriptedEnv.gym_env)
             [CallStep [1]; CallReset; CallStep [2]]
             (NonLinearDynamicsWrapper.mk (rewards_script [5; 6]) 2 0)
             const_world ltac:(cbn; lia)).
  reflexivity.
Defined.

Lemma nonlinear_dynamics_scales_beyond_threshold_witness :
  exists (f : Q) (action' : Action) (w1 : World),
    12 # 10 <= f /\ f <= 2
    /\ (action' = map (fun a => a * f) [1; 2]
        \/ action' = map (fun a => a / f) [1; 2])
    /\ NonLinearDynamicsWrapper.step
         (NonLinearDynamicsWrapper.mk (EchoEnv.mk []) 0 0) [1; 2]
         const_world
       = Ok ((NonLinearDynamicsWrapper.mk (EchoEnv.mk action') 0 1,
              mkTransition action' 0 false false ∅), w1).
Proof.
  destruct (nonlinear_dynamics_scales_beyond_threshold
              (HE := EchoEnv.gym_env)
              (NonLinearDynamicsWrapper.mk (EchoEnv.mk []) 0 0) [1; 2]
              const_world
              ltac:(intros i; split; vm_compute; congruence)
              ltac:(cbn; lia))
    as (f & action' & w1 & Hlo & Hhi & Hshape & Hstep).
  exists f, action', w1.
  repeat split; first [assumption | rewrite Hstep; reflexivity].
Defined.

(** ** TargetVelocityWrapper and JumpRewardWrapper: edges and stacking *)

Section RewardShapingEdges.
Context {E : Type} {HE : GymEnv E}.

(** X18. When the inner observation has no component 8, a step of the
    target-velocity wrapper fails with [IndexError]; when it is empty, so
    does a step of the jump wrapper.  Both happen at step time, after the
    inner step has run, whatever the tolerance or target height. *)
Theorem reward_wrappers_short_observation (e : E) (action : Action)
    (w w' : World) env' (tr : Transition) :
  env_step e action w = Ok ((env', tr), w') ->
  (forall tv tol : Q,
     (length (tr_observation tr) <= 8)%nat ->
     TargetVelocityWrapper.step (TargetVelocityWrapper.mk e tv tol) action w
     = Raise IndexError)
  /\ (forall jt : Q,
        tr_observation tr = [] ->
        JumpRewardWrapper.step (JumpRewardWrapper.mk e jt) action w
        = Raise IndexError).
Proof.
  intros Hinner. split.
  - intros tv tol Hshort.
    unfold TargetVelocityWrapper.step, bind at 1.
    cbn [TargetVelocityWrapper.env]. rewrite Hinner. cbv beta iota.
    unfold bind at 1, getitem.
    rewrite (proj2 (lookup_ge_None (tr_observation tr) 8%nat)) by lia.
    reflexivity.
  - intros jt Hempty.
    unfold JumpRewardWrapper.step, bind at 1.
    cbn [JumpRewardWrapper.env]. rewrite Hinner. cbv beta iota.
    unfold bind at 1, getitem. rewrite Hempty. reflexivity.
Qed.

(** X19. The jump reward is the height over a positive target, not
    clamped: it times the target is the height, it is negative for a
    negative height, above [1] for a height above the target and [1] at
    the target. *)
Theorem jump_reward_is_unclamped (self : JumpRewardWrapper.t E)
    (action : Action) (w w' : World) env' (tr : Transition) (h : Q) :
  0 < JumpRewardWrapper.jump_target_height self ->
  env_step (JumpRewardWrapper.env self) action w = Ok ((env', tr), w') ->
  tr_observation tr !! 0%nat = Some h ->
  exists r : Q,
    JumpRewardWrapper.step self action w
    = Ok ((JumpRewardWrapper.mk env'
             (JumpRewardWrapper.jump_target_height self),
           mkTransition (tr_observation tr) r (tr_terminated tr)
                        (tr_truncated tr) (tr_info tr)), w')
    /\ r * JumpRewardWrapper.jump_target_height self == h
    /\ (h < 0 -> r < 0)
    /\ (JumpRewardWrapper.jump_target_height self < h -> 1 < r)
    /\ (h == JumpRewardWrapper.jump_target_height self -> r == 1).
Proof.
  intros Hjt Hinner Hobs.
  assert (Hnz : ~ JumpRewardWrapper.jump_target_height self == 0) by lra.
  eexists. split;
    [exact (jump_step_inner self action w w' env' tr h Hinner Hobs Hnz) |].
  set (jt := JumpRewardWrapper.jump_target_height self) in *.
  assert (Hmul : h / jt * jt == h) by (field; exact Hnz).
  split; [exact Hmul |].
  split; [| split].
  - intros Hneg. apply Qlt_shift_div_r; [exact Hjt | lra].
  - intros Habove. apply Qlt_shift_div_l; [exact Hjt | lra].
  - intros Heq. rewrite Heq. field. exact Hnz.
Qed.

(** X20. The target-velocity reward depends on the velocity only through
    its distance to the target: two steps whose velocities lie at the
    same distance on either side of [target_velocity] get equal
    rewards. *)
Theorem target_velocity_reward_is_symmetric
    (self : TargetVelocityWrapper.t E) (a1 a2 : Action)
    (w1 w1' w2 w2' : World) env1 env2 (tr1 tr2 : Transition) (v1 v2 : Q) :
  ~ TargetVelocityWrapper.tolerance self == 0 ->
  env_step (TargetVelocityWrapper.env self) a1 w1 = Ok ((env1, tr1), w1') ->
  tr_observation tr1 !! 8%nat = Some v1 ->
  env_step (TargetVelocityWrapper.env self) a2 w2 = Ok ((env2, tr2), w2') ->
  tr_observation tr2 !! 8%nat = Some v2 ->
  v1 - TargetVelocityWrapper.target_velocity self
  == TargetVelocityWrapper.target_velocity self - v2 ->
  exists r1 r2 : Q,
    TargetVelocityWrapper.step self a1 w1
    = Ok ((TargetVelocityWrapper.mk env1
             (TargetVelocityWrapper.target_velocity self)
             (TargetVelocityWrapper.tolerance self),
           mkTransition (tr_observation tr1) r1 (tr_terminated tr1)
                        (tr_truncated tr1) (tr_info tr1)), w1')
    /\ TargetVelocityWrapper.step self a2 w2
       = Ok ((TargetVelocityWrapper.mk env2
                (TargetVelocityWrapper.target_velocity self)
                (TargetVelocityWrapper.tolerance self),
              mkTransition (tr_observation tr2) r2 (tr_terminated tr2)
                           (tr_truncated tr2) (tr_info tr2)), w2')
    /\ r1 == r2.
Proof.
  intros Hnz Hinner1 Hobs1 Hinner2 Hobs2 Hmirror.
  do 2 eexists.
  split; [exact (target_velocity_step_inner self a1 w1 w1' env1 tr1 v1
                   Hinner1 Hobs1 Hnz) |].
  split; [exact (target_velocity_step_inner self a2 w2 w2' env2 tr2 v2
                   Hinner2 Hobs2 Hnz) |].
  set (tv := TargetVelocityWrapper.target_velocity self) in *.
  assert (Habs : Qabs (tv - v1) == Qabs (tv - v2)).
  { assert (Hopp : tv - v1 == - (tv - v2)) by lra.
    rewrite Hopp. apply Qabs_opp. }
  rewrite !py_max_spec, Habs. reflexivity.
Qed.

(** X21. A negative tolerance is accepted and turns the shaping around:
    the reward is then at least [1] and does not decrease when the error
    grows. *)
Theorem target_velocity_negative_tolerance
    (self : TargetVelocityWrapper.t E) (a1 a2 : Action)
    (w1 w1' w2 w2' : World) env1 env2 (tr1 tr2 : Transition) (v1 v2 : Q) :
  TargetVelocityWrapper.tolerance self < 0 ->
  env_step (TargetVelocityWrapper.env self) a1 w1 = Ok ((env1, tr1), w1') ->
  tr_observation tr1 !! 8%nat = Some v1 ->
  env_step (TargetVelocityWrapper.env self) a2 w2 = Ok ((env2, tr2), w2') ->
  tr_observation tr2 !! 8%nat = Some v2 ->
  exists r1 r2 : Q,
    TargetVelocityWrapper.step self a1 w1
    = Ok ((TargetVelocityWrapper.mk env1
             (TargetVelocityWrapper.target_velocity self)
             (TargetVelocityWrapper.tolerance self),
           mkTransition (tr_observation tr1) r1 (tr_terminated tr1)
                        (tr_truncated tr1) (tr_info tr1)), w1')
    /\ TargetVelocityWrapper.step self a2 w2
       = Ok ((TargetVelocityWrapper.mk env2
                (TargetVelocityWrapper.target_velocity self)
                (TargetVelocityWrapper.tolerance self),
              mkTransition (tr_observation tr2) r2 (tr_terminated tr2)
                           (tr_truncated tr2) (tr_info tr2)), w2')
    /\ 1 <= r1
    /\ (Qabs (TargetVelocityWrapper.target_velocity self - v1)
        <= Qabs (TargetVelocityWrapper.target_velocity self - v2) ->
        r1 <= r2).
Proof.
  intros Htol Hinner1 Hobs1 Hinner2 Hobs2.
  assert (Hnz : ~ TargetVelocityWrapper.tolerance self == 0) by lra.
  do 2 eexists.
  split; [exact (target_velocity_step_inner self a1 w1 w1' env1 tr1 v1
                   Hinner1 Hobs1 Hnz) |].
  split; [exact (target_velocity_step_inner self a2 w2 w2' env2 tr2 v2
                   Hinner2 Hobs2 Hnz) |].
  set (tv := TargetVelocityWrapper.target_velocity self) in *.
  set (tol := TargetVelocityWrapper.tolerance self) in *.
  assert (Hratio : forall err, 0 <= err -> err / tol == - (err / - tol)).
  { intros err _. field. exact Hnz. }
  assert (Hpos : 0 < - tol) by lra.
  pose proof (Qabs_nonneg (tv - v1)) as Herr1.
  pose proof (Qabs_nonneg (tv - v2)) as Herr2.
  pose proof (error_ratio_nonneg _ _ Hpos Herr1) as Hq1.
  pose proof (error_ratio_nonneg _ _ Hpos Herr2) as Hq2.
  rewrite !py_max_spec, (Hratio _ Herr1), (Hratio _ Herr2).
  split.
  - eapply Qle_trans; [| apply Q.le_max_r]. lra.
  - intros Hle.
    pose proof (error_ratio_monotone _ _ _ Hpos Hle) as Hmono.
    apply Q.max_lub.
    + apply Q.le_max_l.
    + eapply Qle_trans; [| apply Q.le_max_r]. lra.
Qed.

(** X22. Stacking the two reward wrappers: whichever is outside decides
    the reward, computed from the observation of the wrapped
    environment; the reward of the inside one is discarded. *)
Theorem stacked_reward_wrappers_outer_wins (e : E) (action : Action)
    (w w' : World) env' (tr : Transition) (tv tol jt v h : Q) :
  env_step e action w = Ok ((env', tr), w') ->
  tr_observation tr !! 8%nat = Some v ->
  tr_observation tr !! 0%nat = Some h ->
  ~ tol == 0 ->
  ~ jt == 0 ->
  TargetVelocityWrapper.step
    (TargetVelocityWrapper.mk (JumpRewardWrapper.mk e jt) tv tol) action w
  = Ok ((TargetVelocityWrapper.mk (JumpRewardWrapper.mk env' jt) tv tol,
         mkTransition (tr_observation tr)
           (py_max 0 (1 - Qabs (tv - v) / tol))
           (tr_terminated tr) (tr_truncated tr) (tr_info tr)), w')
  /\ JumpRewardWrapper.step
       (JumpRewardWrapper.mk (TargetVelocityWrapper.mk e tv tol) jt) action w
     = Ok ((JumpRewardWrapper.mk (TargetVelocityWrapper.mk env' tv tol) jt,
            mkTransition (tr_observation tr) (h / jt)
              (tr_terminated tr) (tr_truncated tr) (tr_info tr)), w').
Proof.
  intros Hinner Hv Hh Htol Hjt. split.
  - apply (target_velocity_step_inner
             (TargetVelocityWrapper.mk (JumpRewardWrapper.mk e jt) tv tol)
             action w w' (JumpRewardWrapper.mk env' jt)
             (mkTransition (tr_observation tr) (h / jt)
                (tr_terminated tr) (tr_truncated tr) (tr_info tr)) v);
      [| exact Hv | exact Htol].
    exact (jump_step_inner (JumpRewardWrapper.mk e jt) action w w' env' tr h
             Hinner Hh Hjt).
  - apply (jump_step_inner
             (JumpRewardWrapper.mk (TargetVelocityWrapper.mk e tv tol) jt)
             action w w' (TargetVelocityWrapper.mk env' tv tol)
             (mkTransition (tr_observation tr)
                (py_max 0 (1 - Qabs (tv - v) / tol))
                (tr_terminated tr) (tr_truncated tr) (tr_info tr)) h);
      [| exact Hh | exact Hjt].
    exact (target_velocity_step_inner (TargetVelocityWrapper.mk e tv tol)
             action w w' env' tr v Hinner Hv Htol).
Qed.

(** X23. A target-velocity wrapper around a partial-observability
    wrapper sees the masked observation: with everything masked
    ([observable_ratio <= 0], draws from [0, 1)) the velocity it reads is
    [0], whatever the wrapped environment observed. *)
Theorem target_velocity_reads_the_masked_observation (e : E)
    (action : Action) (w w1 : World) env' (tr : Transition)
    (tv tol ratio : Q) :
  env_step e action w = Ok ((env', tr), w1) ->
  unit_draws w1 ->
  ratio <= 0 ->
  (8 < length (tr_observation tr))%nat ->
  ~ tol == 0 ->
  exists w' : World,
    TargetVelocityWrapper.step
      (TargetVelocityWrapper.mk (PartialObservabilityWrapper.mk e ratio)
         tv tol) action w
    = Ok ((TargetVelocityWrapper.mk
             (PartialObservabilityWrapper.mk env' ratio) tv tol,
           mkTransition (replicate (length (tr_observation tr)) 0)
             (py_max 0 (1 - Qabs (tv - 0) / tol))
             (tr_terminated tr) (tr_truncated tr) (tr_info tr)), w').
Proof.
  intros Hinner Hdraws Hratio Hlen Htol.
  destruct (np_random_rand_draws (length (tr_observation tr)) w1)
    as (us & Hus & Hlenus & Hall).
  eexists.
  apply (target_velocity_step_inner
           (TargetVelocityWrapper.mk (PartialObservabilityWrapper.mk e ratio)
              tv tol)
           action w _ (PartialObservabilityWrapper.mk env' ratio)
           (mkTransition (replicate (length (tr_observation tr)) 0)
              (tr_reward tr) (tr_terminated tr) (tr_truncated tr)
              (tr_info tr)) 0);
    [| cbn [tr_observation]; apply lookup_replicate_2; exact Hlen
     | exact Htol].
  cbn [TargetVelocityWrapper.env env_step
       PartialObservabilityWrapper.gym_env].
  unfold PartialObservabilityWrapper.step, bind at 1.
  cbn [PartialObservabilityWrapper.env]. rewrite Hinner. cbv beta iota.
  unfold bind at 1, PartialObservabilityWrapper.observation, bind at 1.
  rewrite Hus. unfold ret.
  cbn [PartialObservabilityWrapper.observable_ratio].
  rewrite np_where_none_observed; [reflexivity | exact Hlenus |].
  eapply Forall_impl; [exact Hall |].
  intros u [i ->]. cbn beta. destruct (Hdraws i) as [Hlo _]. lra.
Qed.
End RewardShapingEdges.

Lemma reward_wrappers_short_observation_witness :
  TargetVelocityWrapper.step
    (TargetVelocityWrapper.mk (EchoEnv.mk []) 2 (1 # 2)) [1; 2; 3]
    const_world = Raise IndexError
  /\ JumpRewardWrapper.step
       (JumpRewardWrapper.mk (EchoEnv.mk []) 1) [] const_world
     = Raise IndexError.
Proof.
  destruct (reward_wrappers_short_observation (HE := EchoEnv.gym_env)
              (EchoEnv.mk []) [1; 2; 3] const_world const_world
              (EchoEnv.mk [1; 2; 3])
              (mkTransition [1; 2; 3] 0 false false ∅)
              ltac:(reflexivity)) as [Hshort _].
  destruct (reward_wrappers_short_observation (HE := EchoEnv.gym_env)
              (EchoEnv.mk []) [] const_world const_world
              (EchoEnv.mk [])
              (mkTransition [] 0 false false ∅)
              ltac:(reflexivity)) as [_ Hempty].
  split.
  - apply Hshort. cbn. lia.
  - apply Hempty. reflexivity.
Defined.

Lemma jump_reward_is_unclamped_witness :
  exists r : Q,
    JumpRewardWrapper.step
      (JumpRewardWrapper.mk (EchoEnv.mk []) 2) [3; 0] const_world
    = Ok ((JumpRewardWrapper.mk (EchoEnv.mk [3; 0]) 2,
           mkTransition [3; 0] r false false ∅), const_world)
    /\ r * 2 == 3
    /\ 1 < r.
Proof.
  destruct (jump_reward_is_unclamped (HE := EchoEnv.gym_env)
              (JumpRewardWrapper.mk (EchoEnv.mk []) 2) [3; 0]
              const_world const_world (EchoEnv.mk [3; 0])
              (mkTransition [3; 0] 0 false false ∅) 3
              ltac:(reflexivity) ltac:(reflexivity) ltac:(reflexivity))
    as (r & Hstep & Hmul & _ & Habove & _).
  exists r. split; [exact Hstep |]. split; [exact Hmul |].
  apply Habove. reflexivity.
Defined.

Lemma target_velocity_reward_is_symmetric_witness :
  exists r1 r2 : Q,
    TargetVelocityWrapper.step
      (TargetVelocityWrapper.mk (EchoEnv.mk []) 2 (1 # 2))
      [0; 0; 0; 0; 0; 0; 0; 0; 9 # 4] const_world
    = Ok ((TargetVelocityWrapper.mk
             (EchoEnv.mk [0; 0; 0; 0; 0; 0; 0; 0; 9 # 4]) 2 (1 # 2),
           mkTransition [0; 0; 0; 0; 0; 0; 0; 0; 9 # 4] r1 false false ∅),
          const_world)
    /\ TargetVelocityWrapper.step
         (TargetVelocityWrapper.mk (EchoEnv.mk []) 2 (1 # 2))
         [0; 0; 0; 0; 0; 0; 0; 0; 7 # 4] const_world
       = Ok ((TargetVelocityWrapper.mk
                (EchoEnv.mk [0; 0; 0; 0; 0; 0; 0; 0; 7 # 4]) 2 (1 # 2),
              mkTransition [0; 0; 0; 0; 0; 0; 0; 0; 7 # 4] r2 false false ∅),
             const_world)
    /\ r1 == r2.
Proof.
  exact (target_velocity_reward_is_symmetric (HE := EchoEnv.gym_env)
           (TargetVelocityWrapper.mk (EchoEnv.mk []) 2 (1 # 2))
           [0; 0; 0; 0; 0; 0; 0; 0; 9 # 4] [0; 0; 0; 0; 0; 0; 0; 0; 7 # 4]
           const_world const_world const_world const_world
           (EchoEnv.mk [0; 0; 0; 0; 0; 0; 0; 0; 9 # 4])
           (EchoEnv.mk [0; 0; 0; 0; 0; 0; 0; 0; 7 # 4])
           (mkTransition [0; 0; 0; 0; 0; 0; 0; 0; 9 # 4] 0 false false ∅)
           (mkTransition [0; 0; 0; 0; 0; 0; 0; 0; 7 # 4] 0 false false ∅)
           (9 # 4) (7 # 4)
           ltac:(vm_compute; congruence) ltac:(reflexivity)
           ltac:(reflexivity) ltac:(reflexivity) ltac:(reflexivity)
           ltac:(reflexivity)).
Defined.

Lemma target_velocity_negative_tolerance_witness :
  exists r1 r2 : Q,
    TargetVelocityWrapper.step
      (TargetVelocityWrapper.mk (EchoEnv.mk []) 2 (- (1 # 2)))
      [0; 0; 0; 0; 0; 0; 0; 0; 2] const_world
    = Ok ((TargetVelocityWrapper.mk
             (EchoEnv.mk [0; 0; 0; 0; 0; 0; 0; 0; 2]) 2 (- (1 # 2)),
           mkTransition [0; 0; 0; 0; 0; 0; 0; 0; 2] r1 false false ∅),
          const_world)
    /\ TargetVelocityWrapper.step
         (TargetVelocityWrapper.mk (EchoEnv.mk []) 2 (- (1 # 2)))
         [0; 0; 0; 0; 0; 0; 0; 0; 3] const_world
       = Ok ((TargetVelocityWrapper.mk
                (EchoEnv.mk [0; 0; 0; 0; 0; 0; 0; 0; 3]) 2 (- (1 # 2)),
              mkTransition [0; 0; 0; 0; 0; 0; 0; 0; 3] r2 false false ∅),
             const_world)
    /\ 1 <= r1
    /\ r1 <= r2.
Proof.
  destruct (target_velocity_negative_tolerance (HE := EchoEnv.gym_env)
              (TargetVelocityWrapper.mk (EchoEnv.mk []) 2 (- (1 # 2)))
              [0; 0; 0; 0; 0; 0; 0; 0; 2] [0; 0; 0; 0; 0; 0; 0; 0; 3]
              const_world const_world const_world const_world
              (EchoEnv.mk [0; 0; 0; 0; 0; 0; 0; 0; 2])
              (EchoEnv.mk [0; 0; 0; 0; 0; 0; 0; 0; 3])
              (mkTransition [0; 0; 0; 0; 0; 0; 0; 0; 2] 0 false false ∅)
              (mkTransition [0; 0; 0; 0; 0; 0; 0; 0; 3] 0 false false ∅)
              2 3
              ltac:(reflexivity) ltac:(reflexivity) ltac:(reflexivity)
              ltac:(reflexivity) ltac:(reflexivity))
    as (r1 & r2 & Hstep1 & Hstep2 & Hone & Hmono).
  exists r1, r2. repeat split; try assumption.
  apply Hmono. vm_compute. congruence.
Defined.

Lemma stacked_reward_wrappers_outer_wins_witness :
  JumpRewardWrapper.step
    (JumpRewardWrapper.mk
       (TargetVelocityWrapper.mk (EchoEnv.mk []) 2 (1 # 2)) 4)
    [3; 0; 0; 0; 0; 0; 0; 0; 2] const_world
  = Ok ((JumpRewardWrapper.mk
           (TargetVelocityWrapper.mk
              (EchoEnv.mk [3; 0; 0; 0; 0; 0; 0; 0; 2]) 2 (1 # 2)) 4,
         mkTransition [3; 0; 0; 0; 0; 0; 0; 0; 2] (3 / 4) false false ∅),
        const_world).
Proof.
  apply (stacked_reward_wrappers_outer_wins (HE := EchoEnv.gym_env)
           (EchoEnv.mk []) [3; 0; 0; 0; 0; 0; 0; 0; 2]
           const_world const_world
           (EchoEnv.mk [3; 0; 0; 0; 0; 0; 0; 0; 2])
           (mkTransition [3; 0; 0; 0; 0; 0; 0; 0; 2] 0 false false ∅)
           2 (1 # 2) 4 2 3
           ltac:(reflexivity) ltac:(reflexivity) ltac:(reflexivity)
           ltac:(vm_compute; congruence) ltac:(vm_compute; congruence)).
Defined.

Lemma target_velocity_reads_the_masked_observation_witness :
  exists w' : World,
    TargetVelocityWrapper.step
      (TargetVelocityWrapper.mk
         (PartialObservabilityWrapper.mk (EchoEnv.mk []) 0) 2 4)
      [1; 1; 1; 1; 1; 1; 1; 1; 2] const_world
    = Ok ((TargetVelocityWrapper.mk
             (PartialObservabilityWrapper.mk
                (EchoEnv.mk [1; 1; 1; 1; 1; 1; 1; 1; 2]) 0) 2 4,
           mkTransition [0; 0; 0; 0; 0; 0; 0; 0; 0]
             (py_max 0 (1 - Qabs (2 - 0) / 4)) false false ∅), w').
Proof.
  apply (target_velocity_reads_the_masked_observation
           (HE := EchoEnv.gym_env)
           (EchoEnv.mk []) [1; 1; 1; 1; 1; 1; 1; 1; 2]
           const_world const_world
           (EchoEnv.mk [1; 1; 1; 1; 1; 1; 1; 1; 2])
           (mkTransition [1; 1; 1; 1; 1; 1; 1; 1; 2] 0 false false ∅)
           2 4 0 ltac:(reflexivity)).
  - intros i. split; vm_compute; congruence.
  - vm_compute. congruence.
  - cbn. lia.
  - vm_compute. congruence.
Defined.

(** ** DelayedRewardWrapper: nothing is lost while stepping *)

(** X24. For [delay_steps >= 1], steps of a new wrapper lose and reorder
    nothing: the rewards emitted, followed by the rewards left in the
    queue, are the leading zeros followed by the inner rewards in the
    order they were earned; the wrapper's steps return whenever the
    inner steps do. *)
Theorem delayed_reward_conserves_rewards {E : Type} {HE : GymEnv E}
    (e : E) (m : nat) (actions : list Action) (w w' : World) e'
    (rs : list npfloat) :
  run e (map CallStep actions) w = Ok ((e', rs), w') ->
  exists self' (emitted : list npfloat),
    (do self <- DelayedRewardWrapper.__init__ e (Z.of_nat (S m)) ;
     run self (map CallStep actions)) w = Ok ((self', emitted), w')
    /\ DelayedRewardWrapper.env self' = e'
    /\ emitted ++ deque.items (DelayedRewardWrapper.reward_buffer self')
       = replicate (Nat.min m (length rs)) (Finite 0) ++ rs.
Proof.
  intros Hrun.
  destruct (run_delayed_as_feed m actions e [] w w' e' rs
              ltac:(cbn; lia) Hrun) as (buf' & xs & Hwrapped & Hfed).
  rewrite (feed_rewards_from e' m rs [] w') in Hfed by (cbn; lia).
  cbn [length app] in Hfed. rewrite Nat.sub_0_r in Hfed.
  injection Hfed as <- <-.
  do 2 eexists. split; [| split].
  - unfold DelayedRewardWrapper.__init__, deque.new, bind at 1.
    unfold bind at 1.
    destruct (Z.ltb_spec (Z.of_nat (S m)) 0) as [Hneg | _]; [lia |].
    unfold ret at 1. unfold ret at 1. exact Hwrapped.
  - reflexivity.
  - cbn [DelayedRewardWrapper.reward_buffer deque.items].
    rewrite <- app_assoc, take_drop. reflexivity.
Qed.

Lemma delayed_reward_conserves_rewards_witness :
  exists self' (emitted : list npfloat),
    (do self <- DelayedRewardWrapper.__init__
                  (rewards_script [1; 2; 3; 4; 5]) 3 ;
     run self (map CallStep [[]; []; []; []; []])) const_world
    = Ok ((self', emitted), const_world)
    /\ emitted ++ deque.items (DelayedRewardWrapper.reward_buffer self')
       = map Finite [0; 0; 1; 2; 3; 4; 5].
Proof.
  destruct (delayed_reward_conserves_rewards
              (HE := ScriptedEnv.gym_env)
              (rewards_script [1; 2; 3; 4; 5]) 2 [[]; []; []; []; []]
              const_world const_world
              (ScriptedEnv.mk [] (reward_only 0) [[]; []; []; []; []])
              (map Finite [1; 2; 3; 4; 5]) ltac:(reflexivity))
    as (self' & emitted & Hrun & _ & Hall).
  exists self', emitted. split; [exact Hrun | exact Hall].
Defined.
